(** * Server configuration, version 15 (cmd/config-v15.go)

    A shallow embedding of the duplicate-key scanner, the accessors of
    [serverConfigV15] and the load / validate entry points, with the
    properties the specification states about them. *)

From stdpp Require Import base option list strings gmap fin_maps.

Local Open Scope string_scope.

Set Warnings "-register-all".

(** Go's [error] interface as it is used in this file: [nil], or a value
    whose [Error()] method returns the message it was built from. *)
Definition error : Type := option string.

Definition nil : error := None.

Module errors.
Definition New (text : string) : error := Some text.
End errors.

(** * The gjson tree walker *)

Module gjson.

(** [gjson.Type]: the kind of a [Result]. [Null] is the zero value. *)
Inductive Type_ : Set := Null | False_ | Number | String | True_ | JSON.

#[global] Instance Type_eq_dec : EqDecision Type_.
Proof. solve_decision. Defined.

(** A parsed document. In gjson a [Result] of type [JSON] keeps the raw
    text of an object or an array and [ForEach] walks that text member by
    member; the tree below is what that walk goes through. Object members
    are kept in document order, repeated names included. *)
Inductive json : Type :=
| JNull
| JFalse
| JTrue
| JNumber (raw : string)
| JString (str : string)
| JArray (elems : list json)
| JObject (members : list (string * json)).

(** The fields of [gjson.Result] that the scanner reads on a key. *)
Record Result : Type := mkResult { Type' : Type_; Raw : string; Str : string }.

(** [Result{}]. *)
Definition zero : Result := {| Type' := Null; Raw := ""; Str := "" |}.

(** [Result.String()]. *)
Definition String_ (t : Result) : string :=
  match Type' t with
  | False_ => "false"
  | Number => Raw t
  | String => Str t
  | JSON => Raw t
  | True_ => "true"
  | Null => ""
  end.

(** Modelled from the spec: [Result.ForEach] of package
    github.com/tidwall/gjson, the generic tree walker, is not under src/.
    On an object the iterator receives every member in document order, the
    key as a [Result] of type [String] holding the member's name; on an
    array it receives every element with the zero [Result] as key (array
    elements are unnamed); on any other value it receives the value itself
    once, again with the zero [Result] as key. The walk stops as soon as
    the iterator returns [false]. The iterator is a Go closure: what it
    captures and assigns is the state [St] threaded through the walk. *)
Section ForEach.
Context {St : Type}.
Variable iterator : Result -> json -> St -> St * bool.

Fixpoint forEachMember (members : list (string * json)) (s : St) : St :=
  match members with
  | [] => s
  | (name, value) :: rest =>
      let key := {| Type' := String; Raw := ""; Str := name |} in
      let '(s', more) := iterator key value s in
      if more then forEachMember rest s' else s'
  end.

Fixpoint forEachElement (elems : list json) (s : St) : St :=
  match elems with
  | [] => s
  | value :: rest =>
      let '(s', more) := iterator zero value s in
      if more then forEachElement rest s' else s'
  end.

Definition ForEach (t : json) (s : St) : St :=
  match t with
  | JObject members => forEachMember members s
  | JArray elems => forEachElement elems s
  | _ => fst (iterator zero t s)
  end.
End ForEach.

End gjson.

(** Induction over documents that reaches the members of objects and the
    elements of arrays. *)
Section json_induction.
Import gjson.
Variable P : json -> Prop.
Hypothesis P_null : P JNull.
Hypothesis P_false : P JFalse.
Hypothesis P_true : P JTrue.
Hypothesis P_number : forall raw, P (JNumber raw).
Hypothesis P_string : forall str, P (JString str).
Hypothesis P_array : forall elems, Forall P elems -> P (JArray elems).
Hypothesis P_object :
  forall members, Forall (fun m => P m.2) members -> P (JObject members).

Fixpoint json_nested_ind (v : json) : P v :=
  match v with
  | JNull => P_null
  | JFalse => P_false
  | JTrue => P_true
  | JNumber raw => P_number raw
  | JString str => P_string str
  | JArray elems =>
      P_array elems
        ((fix all (l : list json) : Forall P l :=
            match l with
            | [] => Forall_nil_2 P
            | x :: l' => Forall_cons_2 P x l' (json_nested_ind x) (all l')
            end) elems)
  | JObject members =>
      P_object members
        ((fix all (l : list (string * json)) : Forall (fun m => P m.2) l :=
            match l with
            | [] => Forall_nil_2 _
            | (k, x) :: l' =>
                Forall_cons_2 (fun m => P m.2) (k, x) l' (json_nested_ind x) (all l')
            end) members)
  end.
End json_induction.

(** * Declarations of package cmd made in other files *)

(** The struct types this file stores without looking inside them, each with
    its Go zero value. *)
Class Decls : Type := {
  credential : Type;
  amqpNotify : Type;
  elasticSearchNotify : Type;
  redisNotify : Type;
  natsNotify : Type;
  postgreSQLNotify : Type;
  mySQLNotify : Type;
  kafkaNotify : Type;
  webhookNotify : Type;
  credential_zero : credential;
  amqpNotify_zero : amqpNotify;
  elasticSearchNotify_zero : elasticSearchNotify;
  redisNotify_zero : redisNotify;
  natsNotify_zero : natsNotify;
  postgreSQLNotify_zero : postgreSQLNotify;
  mySQLNotify_zero : mySQLNotify;
  kafkaNotify_zero : kafkaNotify;
  webhookNotify_zero : webhookNotify;
}.

(** [consoleLogger], [fileLogger] and [logger], with the fields this file
    assigns. *)
Module consoleLogger.
Record t : Type := { Enable : bool; Level : string }.
End consoleLogger.

Module fileLogger.
Record t : Type := { Enable : bool; Level : string; Filename : string }.
End fileLogger.

Module logger.
Record t : Type := { Console : consoleLogger.t; File : fileLogger.t }.
Definition zero : t :=
  {| Console := {| consoleLogger.Enable := false; consoleLogger.Level := "" |};
     File := {| fileLogger.Enable := false; fileLogger.Level := "";
                fileLogger.Filename := "" |} |}.
End logger.

(** * A state and early-return monad for function bodies *)

(** How a call ends: it returns an [error] (possibly [nil]) or panics. *)
Inductive result : Type := Returned (err : error) | Panicked.

(** A piece of a function body over the state [St]: it goes on with a value,
    or the function is left at once with a [result]. *)
Definition M (St A : Type) : Type := St -> (A + result) * St.

#[global] Instance M_ret {St} : MRet (M St) := fun A a s => (inl a, s).

#[global] Instance M_bind {St} : MBind (M St) := fun A B k m s =>
  match m s with
  | (inl a, s') => k a s'
  | (inr r, s') => (inr r, s')
  end.

(** [return err]. *)
Definition return_ {St A} (err : error) : M St A := fun s => (inr (Returned err), s).

(** [if err != nil { return err }]. *)
Definition check {St} (err : error) : M St unit :=
  match err with
  | Some msg => return_ (Some msg)
  | None => mret tt
  end.

Definition panic {St A} : M St A := fun s => (inr Panicked, s).

Definition gets {St A} (f : St -> A) : M St A := fun s => (inl (f s), s).

Definition modify {St} (f : St -> St) : M St unit := fun s => (inl tt, f s).

(** A call of a function whose body is [body] and whose last statement
    returns the value the body ends with. *)
Definition call {St} (body : M St error) (s : St) : result * St :=
  match body s with
  | (inl err, s') => (Returned err, s')
  | (inr r, s') => (r, s')
  end.

(** * The package *)

Section Package.

Context {D : Decls}.

(** Go leaves the order of [range] over a map unspecified. The order is a
    parameter: any enumeration of the map's entries. Within one run at most
    one such loop returns on a key, since an error found below a scope is
    returned before that scope's own loop is reached. *)
Variable rangeOrder : gmap string nat -> list (string * nat).
Hypothesis rangeOrder_perm : forall m, rangeOrder m ≡ₚ map_to_list m.

(** [minioConfigFile], a constant of package cmd declared in another
    file. *)
Variable minioConfigFile : string.

(** [gjson.Parse]: the document a text denotes. *)
Variable gjson_Parse : string -> gjson.json.

(** [keysOcc[k]++] on a [map[string]int]: a missing key reads as 0. A
    scope of a document held in memory has fewer than 2^63 members, so the
    64-bit counter cannot wrap and is a [nat]. *)
Definition incr (k : string) (keysOcc : gmap string nat) : gmap string nat :=
  <[k := S (default 0 (keysOcc !! k))]> keysOcc.

(** The loop [for k, v := range keysOcc { if v > 1 { return ... } }]
    over the entries in the order they are enumerated: the key it
    returns on, if any. *)
Fixpoint firstDuplicated (entries : list (string * nat)) : option string :=
  match entries with
  | [] => None
  | (k, v) :: rest => if decide (1 < v) then Some k else firstDuplicated rest
  end.

(** The closure handed to [ForEach]. It captures [keysOcc] and [checkErr]
    and calls the scanner on the member's value. *)
Definition iterator (doCheckDupJSONKeys : gjson.Result -> gjson.json -> error)
    (k : gjson.Result) (v : gjson.json) (captured : gmap string nat * error)
    : (gmap string nat * error) * bool :=
  let '(keysOcc, checkErr) := captured in
  let '(keysOcc, checkErr) :=
    if decide (gjson.Type' k <> gjson.Null)
    then (incr (gjson.String_ k) keysOcc, doCheckDupJSONKeys k v)
    else (keysOcc, checkErr) in
  ((keysOcc, checkErr), bool_decide (checkErr = nil)).

(** The statements after the walk: wrap the error found below, or look for
    a key counted more than once. *)
Definition afterForEach (key : gjson.Result) (captured : gmap string nat * error) : error :=
  let '(keysOcc, checkErr) := captured in
  match checkErr with
  | Some msg => errors.New (gjson.String_ key +:+ " => " +:+ msg)
  | None =>
      match firstDuplicated (rangeOrder keysOcc) with
      | Some k =>
          errors.New (gjson.String_ key +:+ " => `" +:+ k +:+ "` entry is duplicated")
      | None => nil
      end
  end.

(** [doCheckDupJSONKeys], by recursion on the document. On a value that is
    neither an object nor an array [ForEach] hands the value itself to the
    iterator under the zero key, which the iterator skips; the walk is
    written out per kind of value so that the recursion is structural, and
    [doCheckDupJSONKeys_eq] below gives it back in the shape of the
    source. *)
Fixpoint doCheckDupJSONKeys (key : gjson.Result) (value : gjson.json) {struct value} : error :=
  afterForEach key
    match value with
    | gjson.JObject members =>
        gjson.forEachMember (iterator doCheckDupJSONKeys) members (∅, nil)
    | gjson.JArray elems =>
        gjson.forEachElement (iterator doCheckDupJSONKeys) elems (∅, nil)
    | _ => (∅, nil)
    end.

Definition checkDupJSONKeys (json : string) : error :=
  let config := gjson_Parse json in
  let rootKey := {| gjson.Type' := gjson.String; gjson.Raw := ""; gjson.Str := minioConfigFile |} in
  doCheckDupJSONKeys rootKey config.

(** ** What the specification calls a scope with a repeated key *)

Fixpoint occurrences (d : string) (names : list string) : nat :=
  match names with
  | [] => 0
  | k :: rest => (if decide (k = d) then 1 else 0) + occurrences d rest
  end.

(** Some object scope of the document, at any depth and also below arrays,
    holds two members of the same name. *)
Fixpoint hasRepeatedKey (v : gjson.json) : bool :=
  match v with
  | gjson.JObject members =>
      bool_decide (~ NoDup members.*1)
      || existsb (fun m => hasRepeatedKey m.2) members
  | gjson.JArray elems => existsb hasRepeatedKey elems
  | _ => false
  end.

(** [dupScopeAt v path d]: following the member names [path] from [v]
    through objects only leads to an object scope in which the name [d]
    occurs more than once. *)
Inductive dupScopeAt : gjson.json -> list string -> string -> Prop :=
| dup_here members d :
    1 < occurrences d members.*1 ->
    dupScopeAt (gjson.JObject members) [] d
| dup_below members k child path d :
    (k, child) ∈ members ->
    dupScopeAt child path d ->
    dupScopeAt (gjson.JObject members) (k :: path) d.

(** The message for the scope reached by [path] and its repeated key. *)
Definition breadcrumb (path : list string) (d : string) : string :=
  foldr (fun k rest => k +:+ " => " +:+ rest) ("`" +:+ d +:+ "` entry is duplicated") path.


(** ** The configuration snapshot and its accessors *)

(** Config version *)
Definition v15 : string := "15".

(** [notifier]: one map of targets per kind of notification backend. *)
Record notifier : Type := {
  AMQP : gmap string amqpNotify;
  ElasticSearch : gmap string elasticSearchNotify;
  Redis : gmap string redisNotify;
  NATS : gmap string natsNotify;
  PostgreSQL : gmap string postgreSQLNotify;
  MySQL : gmap string mySQLNotify;
  Kafka : gmap string kafkaNotify;
  Webhook : gmap string webhookNotify;
}.

(** [notifier{}]: every map is nil, which reads as empty. *)
Definition notifier_zero : notifier :=
  {| AMQP := ∅; ElasticSearch := ∅; Redis := ∅; NATS := ∅;
     PostgreSQL := ∅; MySQL := ∅; Kafka := ∅; Webhook := ∅ |}.

(** [serverConfigV15]. [Logger] and [Notify] are pointers: [None] is nil,
    [Some] holds the struct pointed to. *)
Record serverConfigV15 : Type := {
  Version : string;
  Credential : credential;
  Region : string;
  Browser : string;
  Logger : option logger.t;
  Notify : option notifier;
}.

(** [serverConfigV15{}]. *)
Definition serverConfigV15_zero : serverConfigV15 :=
  {| Version := ""; Credential := credential_zero; Region := ""; Browser := "";
     Logger := None; Notify := None |}.

(** Every accessor holds [serverConfigMu] for its whole body, readers with
    [RLock] and writers with [Lock]; in this sequential model the critical
    section is the body. A method with a pointer receiver returns the
    struct as it leaves it; a method with a value receiver works on a copy
    and returns its result only. *)

Definition GetVersion (s : serverConfigV15) : string := Version s.

Definition SetRegion (region : string) (s : serverConfigV15) : serverConfigV15 :=
  (* Empty region means "us-east-1" by default from S3 spec. *)
  let region := if decide (region = "") then "us-east-1" else region in
  {| Version := Version s; Credential := Credential s; Region := region;
     Browser := Browser s; Logger := Logger s; Notify := Notify s |}.

Definition GetRegion (s : serverConfigV15) : string :=
  if decide (Region s <> "") then Region s
  else "us-east-1".

Definition SetCredential (creds : credential) (s : serverConfigV15) : serverConfigV15 :=
  {| Version := Version s; Credential := creds; Region := Region s;
     Browser := Browser s; Logger := Logger s; Notify := Notify s |}.

Definition GetCredential (s : serverConfigV15) : credential := Credential s.

Definition SetBrowser (v : string) (s : serverConfigV15) : serverConfigV15 :=
  (* Browser is on by default. *)
  let v := if decide (v = "") then "on" else v in
  {| Version := Version s; Credential := Credential s; Region := Region s;
     Browser := v; Logger := Logger s; Notify := Notify s |}.

Definition GetBrowser (s : serverConfigV15) : string :=
  if decide (Browser s <> "") then Browser s
  else "on".

(** ** Collaborators and package variables *)

(** [envParams]: the values taken from the environment. *)
Record envParams : Type := { creds : credential; browser : string }.

(** What the functions this file calls and does not define give back
    during one run, and the constants it reads from other files. File
    operations are on the path [getConfigFile()] returns. *)
Record Env : Type := {
  (** the error of [os.Stat(configFile)] *)
  os_Stat : error;
  (** the error of [quick.New(srvCfg)] *)
  quick_New : serverConfigV15 -> error;
  (** [qc.Load(configFile)]: its error, and the struct behind the pointer
      given to [quick.New] as decoding leaves it *)
  qc_Load : serverConfigV15 -> error * serverConfigV15;
  (** [ioutil.ReadFile(configFile)] *)
  ioutil_ReadFile : string * error;
  strings_ToLower : string -> string;
  (** [credential.IsValid] *)
  credential_IsValid : credential -> bool;
  (** [Validate] of [logger], called through a pointer that may be nil *)
  logger_Validate : option logger.t -> error;
  (** [Validate] of [notifier], called through a pointer that may be nil *)
  notifier_Validate : option notifier -> error;
  (** the credential [mustGetNewCredential()] generates *)
  mustGetNewCredential : credential;
  globalMinioDefaultRegion : string;
}.

Variable env : Env.

(** The package variables this file reads and assigns. [serverConfig] is a
    pointer: [None] is nil, [Some] holds the snapshot it points to. *)
Record Globals : Type := {
  globalIsEnvCreds : bool;
  globalIsEnvBrowser : bool;
  globalIsBrowserEnabled : bool;
  serverConfig : option serverConfigV15;
}.

(** [globalIsBrowserEnabled = b]. *)
Definition set_globalIsBrowserEnabled (b : bool) (g : Globals) : Globals :=
  {| globalIsEnvCreds := globalIsEnvCreds g; globalIsEnvBrowser := globalIsEnvBrowser g;
     globalIsBrowserEnabled := b; serverConfig := serverConfig g |}.

(** [serverConfig = srvCfg], between [serverConfigMu.Lock()] and
    [serverConfigMu.Unlock()]. *)
Definition set_serverConfig (srvCfg : serverConfigV15) (g : Globals) : Globals :=
  {| globalIsEnvCreds := globalIsEnvCreds g; globalIsEnvBrowser := globalIsEnvBrowser g;
     globalIsBrowserEnabled := globalIsBrowserEnabled g; serverConfig := Some srvCfg |}.

(** [serverConfig.m(...)] or [serverConfig.f] for a method with a value
    receiver or a field: the snapshot behind the pointer is read, and a nil
    pointer panics. *)
Definition onServerConfig {A} (m : serverConfigV15 -> A) : M Globals A :=
  pointer ← gets serverConfig;
  match pointer with
  | Some s => mret (m s)
  | None => panic
  end.

(** ** Fresh defaults *)

(** Assignments through the [Logger] and [Notify] pointers. *)
Definition withLogger (f : logger.t -> logger.t) (s : serverConfigV15) : serverConfigV15 :=
  {| Version := Version s; Credential := Credential s; Region := Region s;
     Browser := Browser s; Logger := f <$> Logger s; Notify := Notify s |}.

Definition withNotify (f : notifier -> notifier) (s : serverConfigV15) : serverConfigV15 :=
  {| Version := Version s; Credential := Credential s; Region := Region s;
     Browser := Browser s; Logger := Logger s; Notify := f <$> Notify s |}.

Definition newServerConfigV15 : serverConfigV15 :=
  let srvCfg :=
    {| Version := v15; Credential := credential_zero;
       Region := globalMinioDefaultRegion env; Browser := "";
       Logger := Some logger.zero; Notify := Some notifier_zero |} in
  let srvCfg := SetCredential (mustGetNewCredential env) srvCfg in
  let srvCfg := SetBrowser "off" srvCfg in
  (* Enable console logger by default on a fresh run. *)
  let srvCfg := withLogger (fun l =>
    {| logger.Console := {| consoleLogger.Enable := true; consoleLogger.Level := "error" |};
       logger.File := logger.File l |}) srvCfg in
  let srvCfg := withLogger (fun l =>
    {| logger.Console := logger.Console l;
       logger.File := {| fileLogger.Enable := true; fileLogger.Level := "error";
                         fileLogger.Filename := "/var/log/px-obj.log" |} |}) srvCfg in
  (* Make sure to initialize notification configs. *)
  withNotify (fun n =>
    {| AMQP := <["1" := amqpNotify_zero]> ∅;
       ElasticSearch := <["1" := elasticSearchNotify_zero]> ∅;
       Redis := <["1" := redisNotify_zero]> ∅;
       NATS := <["1" := natsNotify_zero]> ∅;
       PostgreSQL := <["1" := postgreSQLNotify_zero]> ∅;
       MySQL := <["1" := mySQLNotify_zero]> ∅;
       Kafka := <["1" := kafkaNotify_zero]> ∅;
       Webhook := <["1" := webhookNotify_zero]> ∅ |}) srvCfg.

(** ** Load *)

Definition loadConfig_body (envParams : envParams) : M Globals error :=
  check (os_Stat env);;
  let srvCfg := serverConfigV15_zero in
  check (quick_New env srvCfg);;
  let '(err, srvCfg) := qc_Load env srvCfg in
  check err;;
  (* If env is set override the credentials from config file. *)
  isEnvCreds ← gets globalIsEnvCreds;
  let srvCfg := if isEnvCreds : bool then SetCredential (creds envParams) srvCfg else srvCfg in
  isEnvBrowser ← gets globalIsEnvBrowser;
  let srvCfg := if isEnvBrowser : bool then SetBrowser (browser envParams) srvCfg else srvCfg in
  (if decide (strings_ToLower env (GetBrowser srvCfg) = "off")
   then modify (set_globalIsBrowserEnabled false)
   else mret tt);;
  (* Save the loaded config globally. *)
  modify (set_serverConfig srvCfg);;
  version ← onServerConfig Version;
  if decide (version <> v15)
  then return_ (errors.New ("Unsupported config version `" +:+ version +:+ "`."))
  else mret nil.

Definition loadConfig (envParams : envParams) (g : Globals) : result * Globals :=
  call (loadConfig_body envParams) g.

(** ** Validate *)

(** [validateConfig] assigns no package variable. The state threaded
    through its body is a record of the calls it has made so far, in order,
    kept here to tell which checks a run reaches; the code keeps no such
    record. *)
Inductive Call : Type :=
| Call_getConfigFile
| Call_quick_New
| Call_qc_Load
| Call_GetVersion
| Call_ioutil_ReadFile
| Call_checkDupJSONKeys
| Call_GetRegion
| Call_GetBrowser
| Call_strings_ToLower
| Call_Credential_IsValid
| Call_Logger_Validate
| Call_Notify_Validate.

#[global] Instance Call_eq_dec : EqDecision Call.
Proof. solve_decision. Defined.

Definition calls (c : Call) : M (list Call) unit := modify (fun made => (made ++ [c])%list).

Definition validateConfig_body : M (list Call) error :=
  (* Get file config path *)
  calls Call_getConfigFile;;
  let srvCfg := serverConfigV15_zero in
  (* Load config file *)
  calls Call_quick_New;;
  check (quick_New env srvCfg);;
  calls Call_qc_Load;;
  let '(err, srvCfg) := qc_Load env srvCfg in
  check err;;
  (* Check if config version is valid *)
  calls Call_GetVersion;;
  if decide (GetVersion srvCfg <> v15)
  then return_ (errors.New ("bad config version, expected: " +:+ v15))
  else
  (* Load config file json and check for duplication json keys *)
  calls Call_ioutil_ReadFile;;
  let '(jsonBytes, err) := ioutil_ReadFile env in
  check err;;
  calls Call_checkDupJSONKeys;;
  check (checkDupJSONKeys jsonBytes);;
  (* Validate region field *)
  calls Call_GetRegion;;
  if decide (GetRegion srvCfg = "")
  then return_ (errors.New "Region config value cannot be empty")
  else
  (* Validate browser field *)
  calls Call_GetBrowser;;
  calls Call_strings_ToLower;;
  let b := strings_ToLower env (GetBrowser srvCfg) in
  if decide (b <> "on" /\ b <> "off")
  then return_ (errors.New ("Browser config value " +:+ b +:+ " is invalid"))
  else
  (* Validate credential field *)
  calls Call_Credential_IsValid;;
  if negb (credential_IsValid env (Credential srvCfg))
  then return_ (errors.New "invalid credential")
  else
  (* Validate logger field *)
  calls Call_Logger_Validate;;
  check (logger_Validate env (Logger srvCfg));;
  (* Validate notify field *)
  calls Call_Notify_Validate;;
  check (notifier_Validate env (Notify srvCfg));;
  mret nil.

(** A call of [validateConfig]: what it returns and the calls it made. *)
Definition validateConfig : result * list Call := call validateConfig_body [].

(** ** Auxiliary functions for the scanner's properties *)

(** The key [ForEach] passes for the member called [name]. *)
Definition memberKey (name : string) : gjson.Result :=
  {| gjson.Type' := gjson.String; gjson.Raw := ""; gjson.Str := name |}.

(** The occurrence table after the names have been counted one by one. *)
Definition tally (names : list string) (keysOcc : gmap string nat) : gmap string nat :=
  foldl (fun m k => incr k m) keysOcc names.

(** The error of the first member, in document order, whose value the
    scan rejects. *)
Fixpoint firstError (scan : gjson.Result -> gjson.json -> error)
    (members : list (string * gjson.json)) : error :=
  match members with
  | [] => nil
  | (name, value) :: rest =>
      match scan (memberKey name) value with
      | Some msg => Some msg
      | None => firstError scan rest
      end
  end.

(** ** Auxiliary functions for the properties of load *)

(** The decoded configuration after the overrides [loadConfig] takes from
    the environment. *)
Definition withEnvOverrides (envParams : envParams) (g : Globals)
    (srvCfg : serverConfigV15) : serverConfigV15 :=
  let srvCfg := if globalIsEnvCreds g then SetCredential (creds envParams) srvCfg else srvCfg in
  if globalIsEnvBrowser g then SetBrowser (browser envParams) srvCfg else srvCfg.

(** The checks [validateConfig] makes after the check of the version. *)
Definition checksAfterVersion : list Call :=
  [Call_ioutil_ReadFile; Call_checkDupJSONKeys; Call_GetRegion; Call_GetBrowser;
   Call_strings_ToLower; Call_Credential_IsValid; Call_Logger_Validate;
   Call_Notify_Validate].

End Package.

(** * Concrete documents and collaborators *)

Module Examples.
Import gjson.

(** An object with an array whose only element repeats the key b. *)
Definition docArray : json :=
  JObject [("a", JArray [JObject [("b", JNumber "1"); ("b", JNumber "2")]])].

(** Two sibling objects, each with a member named 1. *)
Definition docSiblings : json :=
  JObject [("notify",
            JObject [("amqp", JObject [("1", JObject [])]);
                     ("redis", JObject [("1", JObject [])])])].

(** The key a twice at the root. *)
Definition docDupRoot : json :=
  JObject [("a", JObject [("b", JNumber "1")]); ("a", JObject [("b", JNumber "2")])].

(** The key 1 twice in the scope of notify. *)
Definition docDupNested : json :=
  JObject [("version", JString "15");
           ("notify", JObject [("1", JObject []); ("1", JObject [])])].

(** The texts of these documents. *)
Definition quoted (s : string) : string :=
  let q := String.String (Ascii.ascii_of_nat 34) String.EmptyString in q +:+ s +:+ q.

Definition textArray : string :=
  "{" +:+ quoted "a" +:+ ":[{" +:+ quoted "b" +:+ ":1," +:+ quoted "b" +:+ ":2}]}".

Definition textSiblings : string :=
  "{" +:+ quoted "notify" +:+ ":{" +:+ quoted "amqp" +:+ ":{" +:+ quoted "1" +:+ ":{}},"
      +:+ quoted "redis" +:+ ":{" +:+ quoted "1" +:+ ":{}}}}".

Definition textDupRoot : string :=
  "{" +:+ quoted "a" +:+ ":{" +:+ quoted "b" +:+ ":1}," +:+ quoted "a" +:+ ":{"
      +:+ quoted "b" +:+ ":2}}".

Definition textDupNested : string :=
  "{" +:+ quoted "version" +:+ ":" +:+ quoted "15" +:+ "," +:+ quoted "notify" +:+ ":{"
      +:+ quoted "1" +:+ ":{}," +:+ quoted "1" +:+ ":{}}}".

(** [gjson.Parse] on these four texts; any other text is read as null. *)
Definition parse (text : string) : json :=
  if decide (text = textArray) then docArray
  else if decide (text = textSiblings) then docSiblings
  else if decide (text = textDupRoot) then docDupRoot
  else if decide (text = textDupNested) then docDupNested
  else JNull.

(** Every struct type kept opaque, as the one-point type. *)
Definition decls : Decls :=
  {| credential := unit; amqpNotify := unit; elasticSearchNotify := unit;
     redisNotify := unit; natsNotify := unit; postgreSQLNotify := unit;
     mySQLNotify := unit; kafkaNotify := unit; webhookNotify := unit;
     credential_zero := tt; amqpNotify_zero := tt; elasticSearchNotify_zero := tt;
     redisNotify_zero := tt; natsNotify_zero := tt; postgreSQLNotify_zero := tt;
     mySQLNotify_zero := tt; kafkaNotify_zero := tt; webhookNotify_zero := tt |}.

(** Lower-casing of the letters A to Z, as [strings.ToLower] does on
    ASCII text. *)
Definition lowerByte (c : Ascii.ascii) : Ascii.ascii :=
  let n := Ascii.nat_of_ascii c in
  if decide (65 <= n <= 90) then Ascii.ascii_of_nat (n + 32) else c.

Fixpoint lowerASCII (s : string) : string :=
  match s with
  | String.EmptyString => String.EmptyString
  | String.String c rest => String.String (lowerByte c) (lowerASCII rest)
  end.

(** A stored configuration with the given version and browser fields. *)
Definition stored (version browser : string) : serverConfigV15 (D := decls) :=
  {| Version := version; Credential := credential_zero (Decls := decls);
     Region := "us-east-1"; Browser := browser;
     Logger := Some logger.zero; Notify := Some notifier_zero |}.

(** A run in which every file operation succeeds, decoding yields [cfg]
    and every downstream validator accepts. *)
Definition envLoading (cfg : serverConfigV15 (D := decls)) : Env (D := decls) :=
  {| os_Stat := nil;
     quick_New := fun _ => nil;
     qc_Load := fun _ => (nil, cfg);
     ioutil_ReadFile := (textSiblings, nil);
     strings_ToLower := lowerASCII;
     credential_IsValid := fun _ => true;
     logger_Validate := fun _ => nil;
     notifier_Validate := fun _ => nil;
     mustGetNewCredential := credential_zero (Decls := decls);
     globalMinioDefaultRegion := "us-east-1" |}.

(** No override from the environment, nothing published yet. *)
Definition globals (browserEnabled : bool) : Globals (D := decls) :=
  {| globalIsEnvCreds := false; globalIsEnvBrowser := false;
     globalIsBrowserEnabled := browserEnabled; serverConfig := None |}.

Definition params : envParams (D := decls) := {| creds := credential_zero (Decls := decls); browser := "" |}.

End Examples.

(** * Create and save *)

Section Create.

Context {D : Decls}.

Variable env : Env.

(** What the two further functions [newConfig] and [Save] call give back
    during one run. *)
Record EnvCreate : Type := {
  (** the error of [createConfigDir()] *)
  createConfigDir : error;
  (** the error of [qc.Save(configFile)] for the struct given to
      [quick.New] *)
  qc_Save : serverConfigV15 -> error;
}.

Variable envCreate : EnvCreate.

(** The package variables together with a record of the snapshots handed
    to [qc.Save] so far, in order; what reaches the disk is up to package
    quick, and the code keeps no such record. *)
Record Process : Type := {
  vars : Globals;
  saved : list serverConfigV15;
}.

Definition set_vars (f : Globals -> Globals) (p : Process) : Process :=
  {| vars := f (vars p); saved := saved p |}.

Definition record_save (s : serverConfigV15) (p : Process) : Process :=
  {| vars := vars p; saved := (saved p ++ [s])%list |}.

(** A call [f(...)] inside a body: the callee runs to its end and the
    caller goes on with what it returned; a panic of the callee leaves the
    caller too. *)
Definition invoke {St} (body : M St error) : M St error :=
  fun s =>
    match call body s with
    | (Returned err, s') => (inl err, s')
    | (Panicked, s') => (inr Panicked, s')
    end.

(** [Save], a method with a value receiver: [s] is the copy it works on. *)
Definition Save_body (s : serverConfigV15) : M Process error :=
  (* get config file; initialize quick. *)
  check (quick_New env s);;
  (* Save config file. *)
  modify (record_save s);;
  mret (qc_Save envCreate s).

Definition Save (s : serverConfigV15) (p : Process) : result * Process :=
  call (Save_body s) p.

Definition newConfig_body (envParams : envParams) : M Process error :=
  (* Initialize server config. *)
  let srvCfg := newServerConfigV15 env in
  (* If env is set for a fresh start, save them to config file. *)
  isEnvCreds ← gets (fun p => globalIsEnvCreds (vars p));
  let srvCfg := if isEnvCreds : bool then SetCredential (creds envParams) srvCfg else srvCfg in
  isEnvBrowser ← gets (fun p => globalIsEnvBrowser (vars p));
  let srvCfg := if isEnvBrowser : bool then SetBrowser (browser envParams) srvCfg else srvCfg in
  (* Create config path. *)
  check (createConfigDir envCreate);;
  (* Save the new config globally. *)
  modify (set_vars (set_serverConfig srvCfg));;
  (* Save config into file. *)
  pointer ← gets (fun p => serverConfig (vars p));
  match pointer with
  | Some s => invoke (Save_body s)
  | None => panic
  end.

Definition newConfig (envParams : envParams) (p : Process) : result * Process :=
  call (newConfig_body envParams) p.

End Create.

(** * Auxiliary functions for further properties *)

(** The document with every array emptied. *)
Fixpoint emptyArrays (v : gjson.json) : gjson.json :=
  match v with
  | gjson.JObject members =>
      gjson.JObject ((fun m => (m.1, emptyArrays m.2)) <$> members)
  | gjson.JArray _ => gjson.JArray []
  | _ => v
  end.

(** The scan accepts the value of every one of these members. *)
Definition allAccepted (scan : gjson.Result -> gjson.json -> error)
    (members : list (string * gjson.json)) : Prop :=
  Forall (fun m => scan (memberKey m.1) m.2 = nil) members.

(** The calls of a run of [validateConfig] that gets as far as the check of the browser value. *)
Definition callsUpToBrowser : list Call :=
  [Call_getConfigFile; Call_quick_New; Call_qc_Load; Call_GetVersion;
   Call_ioutil_ReadFile; Call_checkDupJSONKeys; Call_GetRegion; Call_GetBrowser;
   Call_strings_ToLower].

Module MoreExamples.
Import gjson.




(** A run in which the file is there and decoding fails after it has filled
    in part of the struct. *)
Definition envDecodeFails : Env (D := Examples.decls) :=
  {| os_Stat := nil;
     quick_New := fun _ => nil;
     qc_Load := fun _ => (errors.New "unexpected end of JSON input", Examples.stored "15" "off");
     ioutil_ReadFile := (Examples.textSiblings, nil);
     strings_ToLower := Examples.lowerASCII;
     credential_IsValid := fun _ => true;
     logger_Validate := fun _ => nil;
     notifier_Validate := fun _ => nil;
     mustGetNewCredential := credential_zero (Decls := Examples.decls);
     globalMinioDefaultRegion := "us-east-1" |}.

(** A run in which the stored document is the given text and decodes to
    [cfg]. *)
Definition envStored (text : string) (cfg : serverConfigV15 (D := Examples.decls))
    : Env (D := Examples.decls) :=
  {| os_Stat := nil;
     quick_New := fun _ => nil;
     qc_Load := fun _ => (nil, cfg);
     ioutil_ReadFile := (text, nil);
     strings_ToLower := Examples.lowerASCII;
     credential_IsValid := fun _ => true;
     logger_Validate := fun _ => nil;
     notifier_Validate := fun _ => nil;
     mustGetNewCredential := credential_zero (Decls := Examples.decls);
     globalMinioDefaultRegion := "us-east-1" |}.

(** A stored configuration of version 15 whose region field is empty. *)
Definition storedNoRegion : serverConfigV15 (D := Examples.decls) :=
  {| Version := "15"; Credential := credential_zero (Decls := Examples.decls);
     Region := ""; Browser := "on";
     Logger := Some logger.zero; Notify := Some notifier_zero |}.

(** A run in which the stored document decodes to the fresh defaults. *)
Definition envDefaults : Env (D := Examples.decls) :=
  envStored Examples.textSiblings
    (newServerConfigV15 (Examples.envLoading (Examples.stored "15" "on"))).

(** The directory can be made and the save succeeds. *)
Definition envCreateOk : EnvCreate (D := Examples.decls) :=
  {| createConfigDir := nil; qc_Save := fun _ => nil |}.

(** The directory can be made and the save fails. *)
Definition envCreateSaveFails : EnvCreate (D := Examples.decls) :=
  {| createConfigDir := nil; qc_Save := fun _ => errors.New "disk full" |}.

(** The directory cannot be made. *)
Definition envCreateNoDir : EnvCreate (D := Examples.decls) :=
  {| createConfigDir := errors.New "permission denied"; qc_Save := fun _ => nil |}.

(** Browser overridden from the environment. *)
Definition globalsEnvBrowser : Globals (D := Examples.decls) :=
  {| globalIsEnvCreds := false; globalIsEnvBrowser := true;
     globalIsBrowserEnabled := true; serverConfig := None |}.

Definition paramsBrowser (v : string) : envParams (D := Examples.decls) :=
  {| creds := credential_zero (Decls := Examples.decls); browser := v |}.

(** A process that has published and saved nothing yet. *)
Definition fresh : Process (D := Examples.decls) :=
  {| vars := Examples.globals true; saved := [] |}.

End MoreExamples.

(** * Properties *)

(** ** The occurrence table *)

Lemma incr_lookup k d (m : gmap string nat) :
  default 0 (incr k m !! d) = (if decide (k = d) then 1 else 0) + default 0 (m !! d).
Proof.
  unfold incr. destruct (decide (k = d)) as [->|Hne].
  - by rewrite lookup_insert_eq.
  - by rewrite lookup_insert_ne.
Qed.

Lemma tally_lookup names d (m : gmap string nat) :
  default 0 (tally names m !! d) = default 0 (m !! d) + occurrences d names.
Proof.
  unfold tally. revert m. induction names as [|k names IH]; intros m; simpl.
  - lia.
  - rewrite IH, incr_lookup. lia.
Qed.

Lemma tally_lookup_Some names d v :
  tally names ∅ !! d = Some v -> v = occurrences d names.
Proof.
  intros Hv. pose proof (tally_lookup names d ∅) as H.
  rewrite Hv, lookup_empty in H. simpl in H. lia.
Qed.

Lemma tally_lookup_repeated names d :
  1 < occurrences d names -> tally names ∅ !! d = Some (occurrences d names).
Proof.
  intros Hd. pose proof (tally_lookup names d ∅) as H.
  rewrite lookup_empty in H. simpl in H.
  destruct (tally names ∅ !! d) as [v|]; simpl in H; [congruence | lia].
Qed.

Lemma occurrences_not_elem d names : d ∉ names -> occurrences d names = 0.
Proof.
  induction names as [|k names IH]; simpl; [done|].
  intros Hd. apply not_elem_of_cons in Hd as [Hne Hd].
  rewrite IH by done. by destruct (decide (k = d)) as [->|].
Qed.

Lemma NoDup_occurrences d names : NoDup names -> occurrences d names <= 1.
Proof.
  induction 1 as [|k names Hk _ IH]; simpl; [lia|].
  destruct (decide (k = d)) as [->|]; [|lia].
  rewrite occurrences_not_elem by done. lia.
Qed.

(** ** The loop over the table *)

Lemma firstDuplicated_Some entries k :
  firstDuplicated entries = Some k -> exists v, (k, v) ∈ entries /\ 1 < v.
Proof.
  induction entries as [|[k' v'] entries IH]; simpl; [done|].
  destruct (decide (1 < v')) as [Hv|_].
  - intros [= ->]. exists v'. split; [left | done].
  - intros [v [Hin Hv]]%IH. exists v. split; [by right | done].
Qed.

Lemma firstDuplicated_None entries k v :
  firstDuplicated entries = None -> (k, v) ∈ entries -> v <= 1.
Proof.
  induction entries as [|[k' v'] entries IH]; simpl.
  - intros _ Hin. by apply elem_of_nil in Hin.
  - destruct (decide (1 < v')) as [|Hv]; [done|].
    intros Hnone [[= -> ->]|Hin]%elem_of_cons; [lia | by apply IH].
Qed.

(** ** The walk *)

Lemma firstError_Some scan members msg :
  firstError scan members = Some msg ->
  exists name value, (name, value) ∈ members /\ scan (memberKey name) value = Some msg.
Proof.
  induction members as [|[name value] members IH]; simpl; [done|].
  destruct (scan (memberKey name) value) as [msg'|] eqn:Hscan.
  - intros [= ->]. exists name, value. split; [left | done].
  - intros (n & v & Hin & Hv)%IH. exists n, v. split; [by right | done].
Qed.

Lemma firstError_None scan members name value :
  firstError scan members = nil -> (name, value) ∈ members ->
  scan (memberKey name) value = nil.
Proof.
  induction members as [|[n v] members IH]; simpl.
  - intros _ Hin. by apply elem_of_nil in Hin.
  - destruct (scan (memberKey n) v) eqn:Hscan; [done|].
    intros Hnone [[= -> ->]|Hin]%elem_of_cons; [done | by apply IH].
Qed.

(** Over the members of an object the closure counts every name it is
    given and stops at the first member whose value is rejected. *)
Lemma forEachMember_iterator scan members (keysOcc : gmap string nat) :
  (gjson.forEachMember (iterator scan) members (keysOcc, nil)).2 = firstError scan members
  /\ (firstError scan members = nil ->
      (gjson.forEachMember (iterator scan) members (keysOcc, nil)).1
      = tally members.*1 keysOcc).
Proof.
  revert keysOcc. induction members as [|[name value] members IH]; intros keysOcc.
  - done.
  - cbn [gjson.forEachMember firstError fmap list_fmap tally foldl fst].
    unfold iterator at 1 3. cbn [gjson.Type' gjson.String_ gjson.Str].
    destruct (decide (gjson.String <> gjson.Null)) as [_|Hn]; [|by destruct Hn].
    fold (memberKey name).
    destruct (scan (memberKey name) value) as [msg|] eqn:Hscan.
    + rewrite bool_decide_eq_false_2 by done. done.
    + rewrite bool_decide_eq_true_2 by done. apply IH.
Qed.

(** Over the elements of an array the closure is handed the zero key every
    time: it counts nothing and scans nothing. *)
Lemma forEachElement_iterator scan elems (keysOcc : gmap string nat) :
  gjson.forEachElement (iterator scan) elems (keysOcc, nil) = (keysOcc, nil).
Proof.
  induction elems as [|value elems IH]; [done|].
  cbn [gjson.forEachElement]. unfold iterator at 1. cbn [gjson.Type' gjson.zero].
  destruct (decide (gjson.Null <> gjson.Null)) as [Hn|_]; [by destruct Hn|].
  rewrite bool_decide_eq_true_2 by done. apply IH.
Qed.

(** The scanner in the shape of the source: one [ForEach] over the value
    with the closure, then the statements after it. *)
Lemma doCheckDupJSONKeys_eq rangeOrder key value :
  doCheckDupJSONKeys rangeOrder key value
  = afterForEach rangeOrder key
      (gjson.ForEach (iterator (doCheckDupJSONKeys rangeOrder)) value (∅, nil)).
Proof. destruct value; reflexivity. Qed.

(** ** What the scanner reports *)

Section ScannerProperties.

Variable rangeOrder : gmap string nat -> list (string * nat).
Hypothesis rangeOrder_perm : forall m, rangeOrder m ≡ₚ map_to_list m.

Lemma rangeOrder_lookup (m : gmap string nat) k v :
  (k, v) ∈ rangeOrder m <-> m !! k = Some v.
Proof. rewrite rangeOrder_perm. apply elem_of_map_to_list. Qed.

Lemma breadcrumb_cons k path d :
  breadcrumb (k :: path) d = k +:+ " => " +:+ breadcrumb path d.
Proof. reflexivity. Qed.

(** The scanner on an object: the error of the first rejected member,
    wrapped, or else the verdict of the loop over the table. *)
Lemma doCheckDupJSONKeys_object key members :
  doCheckDupJSONKeys rangeOrder key (gjson.JObject members)
  = match firstError (doCheckDupJSONKeys rangeOrder) members with
    | Some msg => errors.New (gjson.String_ key +:+ " => " +:+ msg)
    | None =>
        match firstDuplicated (rangeOrder (tally members.*1 ∅)) with
        | Some k =>
            errors.New (gjson.String_ key +:+ " => `" +:+ k +:+ "` entry is duplicated")
        | None => nil
        end
    end.
Proof.
  cbn [doCheckDupJSONKeys].
  destruct (forEachMember_iterator (doCheckDupJSONKeys rangeOrder) members ∅) as [Herr Hocc].
  destruct (gjson.forEachMember _ members (∅, nil)) as [keysOcc checkErr].
  cbn [fst snd] in Herr, Hocc. subst checkErr. unfold afterForEach.
  destruct (firstError _ members) as [msg|]; [done|].
  by rewrite Hocc.
Qed.

(** The scanner never looks below an array, nor into a scalar. *)
Lemma doCheckDupJSONKeys_not_object key value :
  (forall members, value <> gjson.JObject members) ->
  doCheckDupJSONKeys rangeOrder key value = nil.
Proof using rangeOrder_perm.
  intros Hobj. destruct value as [| | | | |elems|members];
    cbn [doCheckDupJSONKeys]; try rewrite forEachElement_iterator;
    unfold afterForEach.
  all: try (by destruct (Hobj members)).
  all: destruct (firstDuplicated (rangeOrder ∅)) as [k|] eqn:Hdup; [|done].
  all: apply firstDuplicated_Some in Hdup as (v & Hin & _).
  all: apply rangeOrder_lookup in Hin; by rewrite lookup_empty in Hin.
Qed.

(** Every failure names a scope reached through objects and a key
    repeated in it. *)
Lemma doCheckDupJSONKeys_sound value : forall key msg,
  doCheckDupJSONKeys rangeOrder key value = Some msg ->
  exists path d, dupScopeAt value path d /\ msg = breadcrumb (gjson.String_ key :: path) d.
Proof using rangeOrder_perm.
  induction value as [| | |raw|str|elems _|members IH] using json_nested_ind;
    intros key msg.
  1-6: by rewrite doCheckDupJSONKeys_not_object.
  rewrite doCheckDupJSONKeys_object.
  destruct (firstError _ members) as [below|] eqn:Hbelow.
  - intros [= <-].
    apply firstError_Some in Hbelow as (name & child & Hin & Hchild).
    rewrite Forall_forall in IH.
    destruct (IH _ Hin _ _ Hchild) as (path & d & Hscope & ->).
    exists (name :: path), d. split; [by eapply dup_below | done].
  - destruct (firstDuplicated _) as [k|] eqn:Hdup; [|done].
    intros [= <-].
    apply firstDuplicated_Some in Hdup as (v & Hin & Hv).
    apply rangeOrder_lookup, tally_lookup_Some in Hin. subst v.
    exists [], k. split; [by apply dup_here | done].
Qed.

(** Success means that no scope reached through objects repeats a key. *)
Lemma doCheckDupJSONKeys_complete value : forall key path d,
  doCheckDupJSONKeys rangeOrder key value = nil -> ~ dupScopeAt value path d.
Proof using rangeOrder_perm.
  intros key path d Hnil Hscope. revert key Hnil.
  induction Hscope as [members d Hd|members k child path d Hin _ IH]; intros key;
    rewrite doCheckDupJSONKeys_object;
    destruct (firstError _ members) as [below|] eqn:Hbelow; try done.
  - destruct (firstDuplicated _) as [k|] eqn:Hdup; [done|]. intros _.
    pose proof Hd as Hin. apply tally_lookup_repeated, rangeOrder_lookup in Hin.
    apply (firstDuplicated_None _ _ _ Hdup) in Hin. lia.
  - intros _. eapply IH, firstError_None; eauto.
Qed.

Lemma hasRepeatedKey_false value path d :
  hasRepeatedKey value = false -> ~ dupScopeAt value path d.
Proof.
  intros Hno Hscope.
  induction Hscope as [members d Hd|members k child path d Hin _ IH];
    cbn [hasRepeatedKey] in Hno; apply orb_false_elim in Hno as [Hhere Hbelow].
  - apply bool_decide_eq_false in Hhere.
    apply Hhere. intros Hnodup. apply (NoDup_occurrences d) in Hnodup. lia.
  - apply IH. rewrite <- not_true_iff_false in Hbelow |- *.
    intros Hchild. apply Hbelow, existsb_exists.
    exists (k, child). split; [by apply list_elem_of_In | done].
Qed.

Variable minioConfigFile : string.
Variable gjson_Parse : string -> gjson.json.

(** C1, amended. For every document with at least one object scope that
    repeats a key and is reached from the root through object members
    only, checkDupJSONKeys returns a failure, and its message is the
    breadcrumb of one such scope: the root key, the names of the members
    leading to the scope, the last of which is the scope's enclosing key,
    and a key repeated in that scope. *)
Theorem checkDupJSONKeys_reports_repeated_key (json : string) :
  (exists path d, dupScopeAt (gjson_Parse json) path d) ->
  exists path d,
    dupScopeAt (gjson_Parse json) path d
    /\ checkDupJSONKeys rangeOrder minioConfigFile gjson_Parse json
       = errors.New (breadcrumb (minioConfigFile :: path) d).
Proof using rangeOrder_perm.
  intros (path & d & Hscope). unfold checkDupJSONKeys.
  destruct (doCheckDupJSONKeys rangeOrder _ (gjson_Parse json)) as [msg|] eqn:Hrun.
  - apply doCheckDupJSONKeys_sound in Hrun as (path' & d' & Hscope' & ->).
    by exists path', d'.
  - by apply (doCheckDupJSONKeys_complete _ _ path d) in Hrun.
Qed.

(** C3. For every document in which no object scope repeats a key,
    checkDupJSONKeys returns success; the same name in two different
    scopes is no repetition, the table being created afresh by every call
    of the scanner. *)
Theorem checkDupJSONKeys_accepts_distinct_keys (json : string) :
  hasRepeatedKey (gjson_Parse json) = false ->
  checkDupJSONKeys rangeOrder minioConfigFile gjson_Parse json = nil.
Proof using rangeOrder_perm.
  intros Hno. unfold checkDupJSONKeys.
  destruct (doCheckDupJSONKeys rangeOrder _ (gjson_Parse json)) as [msg|] eqn:Hrun; [|done].
  apply doCheckDupJSONKeys_sound in Hrun as (path & d & Hscope & _).
  by apply hasRepeatedKey_false in Hscope.
Qed.

End ScannerProperties.

(** A document with the key 1 twice under notify is reported, with the
    breadcrumb of that scope. *)
Lemma checkDupJSONKeys_reports_repeated_key_witness :
  exists path d,
    dupScopeAt (Examples.parse Examples.textDupNested) path d
    /\ checkDupJSONKeys map_to_list "config.json" Examples.parse Examples.textDupNested
       = errors.New (breadcrumb ("config.json" :: path) d).
Proof.
  apply (checkDupJSONKeys_reports_repeated_key map_to_list (fun m => reflexivity _)
           "config.json" Examples.parse Examples.textDupNested).
  exists ["notify"], "1".
  apply (dup_below _ "notify" (gjson.JObject [("1", gjson.JObject []); ("1", gjson.JObject [])])).
  - right. left.
  - apply dup_here. vm_compute. lia.
Defined.

(** A document whose only scope with a repeated key lies inside an array:
    the scanner returns success. *)
Lemma checkDupJSONKeys_array_counterexample :
  hasRepeatedKey (Examples.parse Examples.textArray) = true
  /\ checkDupJSONKeys map_to_list "config.json" Examples.parse Examples.textArray = nil.
Proof. split; vm_compute; reflexivity. Qed.

(** Two sibling objects that each hold a member named 1 are accepted. *)
Lemma checkDupJSONKeys_accepts_distinct_keys_witness :
  hasRepeatedKey (Examples.parse Examples.textSiblings) = false
  /\ checkDupJSONKeys map_to_list "config.json" Examples.parse Examples.textSiblings = nil.
Proof.
  split; [vm_compute; reflexivity|].
  apply (checkDupJSONKeys_accepts_distinct_keys map_to_list (fun m => reflexivity _)
           "config.json" Examples.parse Examples.textSiblings).
  vm_compute; reflexivity.
Defined.

(** ** Accessors *)

Section AccessorProperties.

Context {D : Decls}.

Lemma GetRegion_SetRegion (region : string) (s : serverConfigV15) :
  GetRegion (SetRegion region s) = if decide (region = "") then "us-east-1" else region.
Proof.
  unfold GetRegion, SetRegion. cbn [Region].
  destruct (decide (region = "")) as [->|Hne]; [done|].
  by destruct (decide (region <> "")).
Qed.

Lemma GetBrowser_SetBrowser (v : string) (s : serverConfigV15) :
  GetBrowser (SetBrowser v s) = if decide (v = "") then "on" else v.
Proof.
  unfold GetBrowser, SetBrowser. cbn [Browser].
  destruct (decide (v = "")) as [->|Hne]; [done|].
  by destruct (decide (v <> "")).
Qed.

(** C7. SetRegion with the empty string followed by GetRegion returns
    the fallback us-east-1, and SetRegion with any non-empty region
    followed by GetRegion returns that region unchanged. *)
Theorem SetRegion_then_GetRegion (s : serverConfigV15) :
  GetRegion (SetRegion "" s) = "us-east-1"
  /\ forall region, region <> "" -> GetRegion (SetRegion region s) = region.
Proof.
  split; [by rewrite GetRegion_SetRegion|].
  intros region Hne. rewrite GetRegion_SetRegion. by destruct (decide (region = "")).
Qed.

(** C8. SetBrowser with the empty string followed by GetBrowser returns
    on, and SetBrowser with any non-empty value followed by GetBrowser
    returns that value unchanged, whether or not it would pass
    validation. *)
Theorem SetBrowser_then_GetBrowser (s : serverConfigV15) :
  GetBrowser (SetBrowser "" s) = "on"
  /\ forall v, v <> "" -> GetBrowser (SetBrowser v s) = v.
Proof.
  split; [by rewrite GetBrowser_SetBrowser|].
  intros v Hne. rewrite GetBrowser_SetBrowser. by destruct (decide (v = "")).
Qed.

(** C9. GetRegion on the published snapshot leaves every package
    variable, the snapshot and its Region field included, as it was; it
    returns the stored region when that is not empty and the fallback
    us-east-1 when it is, and never the empty string. *)
Theorem GetRegion_reads_only (g : Globals) (s : serverConfigV15) :
  serverConfig g = Some s ->
  onServerConfig GetRegion g = (inl (GetRegion s), g)
  /\ GetRegion s <> ""
  /\ (Region s = "" -> GetRegion s = "us-east-1")
  /\ (Region s <> "" -> GetRegion s = Region s).
Proof.
  intros Hs. unfold onServerConfig, mbind, M_bind, gets. rewrite Hs. unfold GetRegion.
  destruct (decide (Region s <> "")) as [Hne|He]; repeat split; try done.
Qed.

(** C10. The defaults built by newServerConfigV15 store the literal off
    in the browser field, so GetBrowser on them returns off, whereas a
    snapshot whose browser field is empty reads as on. *)
Theorem newServerConfigV15_browser_off (env : Env) :
  Browser (newServerConfigV15 env) = "off"
  /\ GetBrowser (newServerConfigV15 env) = "off"
  /\ forall s : serverConfigV15, Browser s = "" -> GetBrowser s = "on".
Proof.
  repeat split. intros s Hs. unfold GetBrowser. rewrite Hs. done.
Qed.

End AccessorProperties.

(** The region eu-west-1 is read back as it was set. *)
Lemma SetRegion_then_GetRegion_witness :
  GetRegion (SetRegion "eu-west-1" (Examples.stored "15" "on")) = "eu-west-1".
Proof.
  apply (proj2 (SetRegion_then_GetRegion (Examples.stored "15" "on")) "eu-west-1").
  discriminate.
Defined.

(** A browser value that validation would reject is read back as it was
    set. *)
Lemma SetBrowser_then_GetBrowser_witness :
  GetBrowser (SetBrowser "maybe" (Examples.stored "15" "on")) = "maybe".
Proof.
  apply (proj2 (SetBrowser_then_GetBrowser (Examples.stored "15" "on")) "maybe").
  discriminate.
Defined.

(** On a published snapshot whose region is empty, GetRegion returns the
    fallback and the package variables stay as they were. *)
Lemma GetRegion_reads_only_witness :
  let s := serverConfigV15_zero (D := Examples.decls) in
  let g := set_serverConfig s (Examples.globals true) in
  Region s = ""
  /\ onServerConfig GetRegion g = (inl "us-east-1", g)
  /\ serverConfig g = Some s.
Proof.
  intros s g.
  destruct (GetRegion_reads_only g s eq_refl) as (Hcall & _ & Hempty & _).
  split; [reflexivity|]. split; [|reflexivity].
  rewrite Hcall, (Hempty eq_refl). reflexivity.
Defined.

(** The zero snapshot, whose browser field is empty, reads as on. *)
Lemma newServerConfigV15_browser_off_witness :
  GetBrowser (serverConfigV15_zero (D := Examples.decls)) = "on".
Proof.
  apply (proj2 (proj2 (newServerConfigV15_browser_off
                         (Examples.envLoading (Examples.stored "15" "on"))))).
  reflexivity.
Defined.

(** ** Load and validate *)

(** Runs the steps of a function body that are in head position. *)
Ltac run_body :=
  unfold mbind, mret, M_bind, M_ret, check, return_, panic, gets, modify, onServerConfig, calls;
  cbn.

Section LifecycleProperties.

Context {D : Decls}.
Variable env : Env.

(** [loadConfig] step by step: the three early returns, then the clearing
    of the browser flag, the publication and the check of the version. *)
Lemma loadConfig_eq (envParams : envParams) (g : Globals) :
  loadConfig env envParams g
  = match os_Stat env with
    | Some msg => (Returned (Some msg), g)
    | None =>
        match quick_New env serverConfigV15_zero with
        | Some msg => (Returned (Some msg), g)
        | None =>
            match qc_Load env serverConfigV15_zero with
            | (Some msg, _) => (Returned (Some msg), g)
            | (None, decoded) =>
                let srvCfg := withEnvOverrides envParams g decoded in
                let g1 :=
                  if decide (strings_ToLower env (GetBrowser srvCfg) = "off")
                  then set_globalIsBrowserEnabled false g else g in
                (Returned
                   (if decide (Version srvCfg <> v15)
                    then errors.New ("Unsupported config version `" +:+ Version srvCfg +:+ "`.")
                    else nil),
                 set_serverConfig srvCfg g1)
            end
        end
    end.
Proof.
  unfold loadConfig, call, loadConfig_body, withEnvOverrides.
  destruct (os_Stat env) as [msg|]; [done|].
  destruct (quick_New env serverConfigV15_zero) as [msg|]; [done|].
  destruct (qc_Load env serverConfigV15_zero) as [[msg|] decoded]; [done|].
  destruct g as [isEnvCreds isEnvBrowser enabled published].
  destruct isEnvCreds, isEnvBrowser; run_body;
    repeat (case_decide; run_body); done.
Qed.

Lemma withEnvOverrides_Version (envParams : envParams) (g : Globals) (srvCfg : serverConfigV15) :
  Version (withEnvOverrides envParams g srvCfg) = Version srvCfg.
Proof. unfold withEnvOverrides. by destruct (globalIsEnvCreds g), (globalIsEnvBrowser g). Qed.

(** C2. When the stored document decodes and its version is not 15,
    loadConfig returns the version-mismatch error, and the decoded
    snapshot, overrides applied, is what serverConfig points to when the
    error is returned: nothing is rolled back. *)
Theorem loadConfig_version_mismatch_published
    (envParams : envParams) (g : Globals) (decoded : serverConfigV15) :
  os_Stat env = nil ->
  quick_New env serverConfigV15_zero = nil ->
  qc_Load env serverConfigV15_zero = (nil, decoded) ->
  Version decoded <> v15 ->
  exists g',
    loadConfig env envParams g
    = (Returned (errors.New ("Unsupported config version `" +:+ Version decoded +:+ "`.")), g')
    /\ serverConfig g' = Some (withEnvOverrides envParams g decoded)
    /\ Version (withEnvOverrides envParams g decoded) = Version decoded.
Proof.
  intros Hstat Hnew Hload Hversion. rewrite loadConfig_eq, Hstat, Hnew, Hload.
  cbn zeta. rewrite withEnvOverrides_Version.
  destruct (decide (Version decoded <> v15)) as [_|Hn]; [|by destruct Hn].
  eexists. split; [reflexivity|]. split; [|done].
  by destruct (decide (_ = "off")).
Qed.

(** C6, amended. After a successful loadConfig the browser flag is false
    exactly when it was already false before the call or the published
    snapshot's browser value, lowercased, equals off: loadConfig clears
    the flag and never sets it. *)
Theorem loadConfig_browser_flag (envParams : envParams) (g g' : Globals) :
  loadConfig env envParams g = (Returned nil, g') ->
  exists srvCfg,
    serverConfig g' = Some srvCfg
    /\ (globalIsBrowserEnabled g' = false
        <-> globalIsBrowserEnabled g = false
            \/ strings_ToLower env (GetBrowser srvCfg) = "off").
Proof.
  rewrite loadConfig_eq.
  destruct (os_Stat env) as [msg|]; [done|].
  destruct (quick_New env serverConfigV15_zero) as [msg|]; [done|].
  destruct (qc_Load env serverConfigV15_zero) as [[msg|] decoded]; [done|].
  cbn zeta. intros [= _ <-]. eexists. split; [reflexivity|].
  destruct (decide (_ = "off")) as [Hoff|Hon]; cbn; tauto.
Qed.

Variable rangeOrder : gmap string nat -> list (string * nat).
Variable minioConfigFile : string.
Variable gjson_Parse : string -> gjson.json.

(** C4. When the stored document decodes and its version is not 15,
    validateConfig returns the version error, and the calls it has made
    are those up to the reading of the version: the file is not read
    again, the duplicate-key scanner is not run, and neither the region,
    the browser value, the credential, the logger nor the notifier is
    looked at. *)
Theorem validateConfig_version_mismatch_stops (decoded : serverConfigV15) :
  quick_New env serverConfigV15_zero = nil ->
  qc_Load env serverConfigV15_zero = (nil, decoded) ->
  Version decoded <> v15 ->
  exists made,
    validateConfig rangeOrder minioConfigFile gjson_Parse env
    = (Returned (errors.New "bad config version, expected: 15"), made)
    /\ made = [Call_getConfigFile; Call_quick_New; Call_qc_Load; Call_GetVersion]
    /\ forall c, c ∈ checksAfterVersion -> c ∉ made.
Proof.
  intros Hnew Hload Hversion.
  unfold validateConfig, call, validateConfig_body.
  rewrite Hnew, Hload. unfold GetVersion.
  destruct (decide (Version decoded <> v15)) as [_|Hn]; [|by destruct Hn].
  run_body. eexists. split; [reflexivity|]. split; [reflexivity|].
  apply Forall_forall. unfold checksAfterVersion.
  repeat (apply Forall_cons_2; [rewrite list_elem_of_In; simpl; intuition discriminate|]).
  apply Forall_nil_2.
Qed.

End LifecycleProperties.

(** A stored document of version 14 is published although loadConfig
    returns the version error. *)
Lemma loadConfig_version_mismatch_published_witness :
  exists g',
    loadConfig (Examples.envLoading (Examples.stored "14" "on")) Examples.params
      (Examples.globals true)
    = (Returned (errors.New ("Unsupported config version `" +:+ "14" +:+ "`.")), g')
    /\ serverConfig g' = Some (Examples.stored "14" "on")
    /\ Version (Examples.stored "14" "on") = "14".
Proof.
  apply (loadConfig_version_mismatch_published
           (Examples.envLoading (Examples.stored "14" "on")) Examples.params
           (Examples.globals true) (Examples.stored "14" "on"));
    [reflexivity | reflexivity | reflexivity | discriminate].
Defined.

(** A stored document of version 15 whose browser value is OFF in
    capitals, loaded while the flag is set, clears the flag. *)
Lemma loadConfig_browser_flag_witness :
  let env := Examples.envLoading (Examples.stored "15" "OFF") in
  let g' := set_serverConfig (Examples.stored "15" "OFF")
              (set_globalIsBrowserEnabled false (Examples.globals true)) in
  loadConfig env Examples.params (Examples.globals true) = (Returned nil, g')
  /\ exists srvCfg,
       serverConfig g' = Some srvCfg
       /\ (globalIsBrowserEnabled g' = false
           <-> globalIsBrowserEnabled (Examples.globals true) = false
               \/ strings_ToLower env (GetBrowser srvCfg) = "off").
Proof.
  intros env g'.
  assert (loadConfig env Examples.params (Examples.globals true) = (Returned nil, g')) as Hrun
    by (vm_compute; reflexivity).
  split; [exact Hrun|].
  exact (loadConfig_browser_flag env Examples.params (Examples.globals true) g' Hrun).
Defined.

(** A load of a document whose browser value is off clears the flag; a
    later load of a document whose browser value is on succeeds and leaves
    the flag false. *)
Lemma loadConfig_browser_flag_counterexample :
  let first := loadConfig (Examples.envLoading (Examples.stored "15" "off"))
                 Examples.params (Examples.globals true) in
  let second := loadConfig (Examples.envLoading (Examples.stored "15" "on"))
                  Examples.params first.2 in
  first.1 = Returned nil
  /\ second.1 = Returned nil
  /\ serverConfig second.2 = Some (Examples.stored "15" "on")
  /\ ~ (globalIsBrowserEnabled second.2 = false
        <-> Examples.lowerASCII (GetBrowser (Examples.stored "15" "on")) = "off").
Proof.
  intros first second.
  repeat split; try (vm_compute; reflexivity).
  intros [Hoff _].
  assert (globalIsBrowserEnabled second.2 = false) as Hflag by (vm_compute; reflexivity).
  specialize (Hoff Hflag). vm_compute in Hoff. discriminate Hoff.
Qed.

(** On a stored document of version 14, validateConfig stops at the
    version. *)
Lemma validateConfig_version_mismatch_stops_witness :
  exists made,
    validateConfig map_to_list "config.json" Examples.parse
      (Examples.envLoading (Examples.stored "14" "on"))
    = (Returned (errors.New "bad config version, expected: 15"), made)
    /\ made = [Call_getConfigFile; Call_quick_New; Call_qc_Load; Call_GetVersion]
    /\ forall c, c ∈ checksAfterVersion -> c ∉ made.
Proof.
  apply (validateConfig_version_mismatch_stops
           (Examples.envLoading (Examples.stored "14" "on"))
           map_to_list "config.json" Examples.parse (Examples.stored "14" "on"));
    [reflexivity | reflexivity | discriminate].
Defined.

(** * Further properties *)

(** ** The scanner: verdict, arrays, order of the report *)

Lemma firstError_allAccepted scan members :
  firstError scan members = nil <-> allAccepted scan members.
Proof.
  unfold allAccepted. induction members as [|[name value] members IH]; simpl.
  - split; [intros _; apply Forall_nil_2 | done].
  - rewrite Forall_cons. simpl.
    destruct (scan (memberKey name) value) as [msg|]; [|tauto].
    split; [done | by intros [? _]].
Qed.



Lemma firstError_ext scan scan' members :
  Forall (fun m => forall key, scan key m.2 = scan' key m.2) members ->
  firstError scan members = firstError scan' members.
Proof.
  induction 1 as [|[name value] members Hhead _ IH]; simpl; [done|].
  simpl in Hhead. by rewrite Hhead, IH.
Qed.

Lemma firstError_fmap scan (f : gjson.json -> gjson.json) members :
  firstError scan ((fun m => (m.1, f m.2)) <$> members)
  = firstError (fun key value => scan key (f value)) members.
Proof.
  induction members as [|[name value] members IH]; [done|].
  rewrite fmap_cons. cbn [firstError fst snd]. by rewrite IH.
Qed.

Section ScannerFurther.

Variable rangeOrder : gmap string nat -> list (string * nat).
Hypothesis rangeOrder_perm : forall m, rangeOrder m ≡ₚ map_to_list m.


Variable minioConfigFile : string.
Variable gjson_Parse : string -> gjson.json.

(** X1. checkDupJSONKeys returns success exactly when no object scope
    reached from the root through object members only repeats a key. *)
Theorem checkDupJSONKeys_nil_iff (json : string) :
  checkDupJSONKeys rangeOrder minioConfigFile gjson_Parse json = nil
  <-> forall path d, ~ dupScopeAt (gjson_Parse json) path d.
Proof using rangeOrder_perm.
  unfold checkDupJSONKeys. split.
  - intros Hnil path d. by eapply doCheckDupJSONKeys_complete.
  - intros Hnone.
    destruct (doCheckDupJSONKeys rangeOrder _ (gjson_Parse json)) as [msg|] eqn:Hrun; [|done].
    apply (doCheckDupJSONKeys_sound _ rangeOrder_perm) in Hrun as (path & d & Hscope & _).
    by destruct (Hnone path d).
Qed.

(** X2. What the scanner returns does not depend on what the arrays of
    the document hold: it is the same on the document with every array
    emptied. *)
Theorem doCheckDupJSONKeys_ignores_arrays (value : gjson.json) :
  forall key,
    doCheckDupJSONKeys rangeOrder key (emptyArrays value)
    = doCheckDupJSONKeys rangeOrder key value.
Proof.
  induction value as [| | |raw|str|elems _|members IH] using json_nested_ind;
    intros key; try reflexivity.
  - cbn [emptyArrays doCheckDupJSONKeys].
    by rewrite !forEachElement_iterator.
  - cbn [emptyArrays]. rewrite !doCheckDupJSONKeys_object.
    rewrite firstError_fmap.
    rewrite (firstError_ext _ (doCheckDupJSONKeys rangeOrder) members) by exact IH.
    replace (((fun m => (m.1, emptyArrays m.2)) <$> members).*1) with (members.*1); [done|].
    rewrite <- list_fmap_compose. by apply list_fmap_ext.
Qed.


End ScannerFurther.

Section RangeOrders.

Variables rangeOrder1 rangeOrder2 : gmap string nat -> list (string * nat).
Hypothesis rangeOrder1_perm : forall m, rangeOrder1 m ≡ₚ map_to_list m.
Hypothesis rangeOrder2_perm : forall m, rangeOrder2 m ≡ₚ map_to_list m.



End RangeOrders.

(** A document whose only repeated keys lie inside an array is accepted,
    and no scope reached through objects repeats a key. *)
Lemma checkDupJSONKeys_nil_iff_witness :
  checkDupJSONKeys map_to_list "config.json" Examples.parse Examples.textArray = nil
  /\ forall path d, ~ dupScopeAt (Examples.parse Examples.textArray) path d.
Proof.
  assert (checkDupJSONKeys map_to_list "config.json" Examples.parse Examples.textArray = nil)
    as Hnil by (vm_compute; reflexivity).
  split; [exact Hnil|].
  exact (proj1 (checkDupJSONKeys_nil_iff map_to_list (fun m => reflexivity _)
                  "config.json" Examples.parse Examples.textArray) Hnil).
Defined.



(** ** Accessors: how they compose *)

Section AccessorsFurther.

Context {D : Decls}.

(** X5. The three setters act on separate fields: any two of them
    commute, and of two calls of the same setter the later one wins. *)
Theorem setters_commute_and_overwrite
    (s : serverConfigV15) (r r' v v' : string) (c c' : credential) :
  SetRegion r (SetBrowser v s) = SetBrowser v (SetRegion r s)
  /\ SetRegion r (SetCredential c s) = SetCredential c (SetRegion r s)
  /\ SetBrowser v (SetCredential c s) = SetCredential c (SetBrowser v s)
  /\ SetRegion r' (SetRegion r s) = SetRegion r' s
  /\ SetBrowser v' (SetBrowser v s) = SetBrowser v' s
  /\ SetCredential c' (SetCredential c s) = SetCredential c' s.
Proof. repeat split. Qed.

(** X6. Writing back what GetRegion and GetBrowser return stores the
    defaults in place of empty fields and changes nothing any getter
    returns; the fields then hold what the getters return, neither is empty,
    and writing back once more changes nothing. *)
Theorem get_then_set_normalises (s : serverConfigV15) :
  let s' := SetBrowser (GetBrowser s) (SetRegion (GetRegion s) s) in
  GetVersion s' = GetVersion s
  /\ GetCredential s' = GetCredential s
  /\ GetRegion s' = GetRegion s
  /\ GetBrowser s' = GetBrowser s
  /\ Region s' = GetRegion s /\ Region s' <> ""
  /\ Browser s' = GetBrowser s /\ Browser s' <> ""
  /\ SetBrowser (GetBrowser s') (SetRegion (GetRegion s') s') = s'.
Proof.
  destruct s as [version cred region browser lg nt].
  unfold GetBrowser, GetRegion, SetBrowser, SetRegion, GetVersion, GetCredential; cbn.
  destruct (decide (region <> "")) as [Hr|Hr], (decide (browser <> "")) as [Hb|Hb]; cbn;
    repeat (case_decide; cbn); repeat split; congruence.
Qed.

End AccessorsFurther.

(** ** Load: failure, success, overrides, repetition *)

Section LoadFurther.

Context {D : Decls}.
Variable env : Env.

Lemma withEnvOverrides_twice (envParams : envParams) (g g' : Globals) (srvCfg : serverConfigV15) :
  globalIsEnvCreds g' = globalIsEnvCreds g ->
  globalIsEnvBrowser g' = globalIsEnvBrowser g ->
  withEnvOverrides envParams g' (withEnvOverrides envParams g srvCfg)
  = withEnvOverrides envParams g srvCfg.
Proof.
  unfold withEnvOverrides. intros -> ->.
  destruct (globalIsEnvCreds g), (globalIsEnvBrowser g); try done.
  all: unfold SetBrowser, SetCredential; cbn; by repeat (case_decide; cbn).
Qed.

(** X7. When the file is missing, when quick refuses the struct or when
    decoding fails, loadConfig returns that error and leaves every package
    variable as it was: nothing is published, not even what decoding had
    filled in, and the browser flag is not touched. *)
Theorem loadConfig_failure_changes_nothing
    (envParams : envParams) (g : Globals) (msg : string) :
  os_Stat env = Some msg
  \/ (os_Stat env = nil /\ quick_New env serverConfigV15_zero = Some msg)
  \/ (os_Stat env = nil /\ quick_New env serverConfigV15_zero = nil
      /\ exists partial, qc_Load env serverConfigV15_zero = (Some msg, partial)) ->
  loadConfig env envParams g = (Returned (Some msg), g).
Proof.
  rewrite loadConfig_eq.
  intros [->|[[-> ->]|(-> & -> & partial & ->)]]; done.
Qed.

(** X8. loadConfig returns nil exactly when the file is there, quick
    accepts the struct, decoding succeeds and the decoded version is 15;
    and it never panics, whether or not a snapshot was published before. *)
Theorem loadConfig_nil_iff (envParams : envParams) (g : Globals) :
  ((loadConfig env envParams g).1 = Returned nil
   <-> os_Stat env = nil
       /\ quick_New env serverConfigV15_zero = nil
       /\ exists decoded,
            qc_Load env serverConfigV15_zero = (nil, decoded) /\ Version decoded = v15)
  /\ (loadConfig env envParams g).1 <> Panicked.
Proof.
  rewrite loadConfig_eq.
  destruct (os_Stat env) as [msg|]; [split; [split; [done | by intros [? _]] | done]|].
  destruct (quick_New env serverConfigV15_zero) as [msg|];
    [split; [split; [done | by intros (_ & ? & _)] | done]|].
  destruct (qc_Load env serverConfigV15_zero) as [[msg|] decoded];
    [split; [split; [done | by intros (_ & _ & ? & [=] & _)] | done]|].
  cbn zeta. rewrite withEnvOverrides_Version. cbn [fst].
  destruct (decide (Version decoded <> v15)) as [Hne|Heq]; split; try done.
  - split; [done|]. intros (_ & _ & decoded' & [= <-] & Hv). by destruct Hne.
  - split; [|done]. intros _. repeat split.
    exists decoded. split; [done|]. by destruct (decide (Version decoded = v15)).
Qed.

(** X9. When decoding succeeds, the snapshot loadConfig publishes has the
    version, region, logger and notifier that were decoded; its credential
    and browser value are those of the environment when the corresponding
    package flag is set, an empty browser value reading as on, and the
    decoded ones otherwise. The two flags themselves are not changed. *)
Theorem loadConfig_publishes_overrides
    (envParams : envParams) (g : Globals) (decoded : serverConfigV15) :
  os_Stat env = nil ->
  quick_New env serverConfigV15_zero = nil ->
  qc_Load env serverConfigV15_zero = (nil, decoded) ->
  exists s,
    serverConfig (loadConfig env envParams g).2 = Some s
    /\ Version s = Version decoded /\ Region s = Region decoded
    /\ Logger s = Logger decoded /\ Notify s = Notify decoded
    /\ Credential s = (if globalIsEnvCreds g then creds envParams else Credential decoded)
    /\ GetBrowser s
       = (if globalIsEnvBrowser g
          then if decide (browser envParams = "") then "on" else browser envParams
          else GetBrowser decoded)
    /\ globalIsEnvCreds (loadConfig env envParams g).2 = globalIsEnvCreds g
    /\ globalIsEnvBrowser (loadConfig env envParams g).2 = globalIsEnvBrowser g.
Proof.
  intros Hstat Hnew Hload.
  pose proof (loadConfig_eq env envParams g) as Heq.
  rewrite Hstat, Hnew, Hload in Heq. cbv beta iota zeta delta [nil] in Heq.
  rewrite Heq. cbn [snd]. set (s := withEnvOverrides envParams g decoded).
  exists s. split; [done|].
  assert (globalIsEnvCreds (if decide (strings_ToLower env (GetBrowser s) = "off")
                            then set_globalIsBrowserEnabled false g else g)
          = globalIsEnvCreds g
          /\ globalIsEnvBrowser (if decide (strings_ToLower env (GetBrowser s) = "off")
                                 then set_globalIsBrowserEnabled false g else g)
             = globalIsEnvBrowser g) as [Hc Hb]
    by (by destruct (decide (_ = "off"))).
  cbn [set_serverConfig globalIsEnvCreds globalIsEnvBrowser]. rewrite Hc, Hb.
  unfold s, withEnvOverrides.
  destruct (globalIsEnvCreds g), (globalIsEnvBrowser g);
    rewrite ?GetBrowser_SetBrowser; by repeat split.
Qed.

(** X10. Loading twice in a row from the same file gives what loading
    once gives: the same result, the same published snapshot, the same
    flag. *)
Theorem loadConfig_idempotent (envParams : envParams) (g : Globals) :
  loadConfig env envParams (loadConfig env envParams g).2 = loadConfig env envParams g.
Proof.
  rewrite !loadConfig_eq.
  destruct (os_Stat env) as [msg|]; [done|].
  destruct (quick_New env serverConfigV15_zero) as [msg|]; [done|].
  destruct (qc_Load env serverConfigV15_zero) as [[msg|] decoded]; [done|].
  cbn zeta. cbn [snd].
  set (srvCfg := withEnvOverrides envParams g decoded).
  assert (forall g1, globalIsEnvCreds g1 = globalIsEnvCreds g ->
                     globalIsEnvBrowser g1 = globalIsEnvBrowser g ->
                     withEnvOverrides envParams g1 decoded = srvCfg) as Hsame.
  { intros g1 Hc Hb. unfold srvCfg, withEnvOverrides. by rewrite Hc, Hb. }
  rewrite Hsame; [|by destruct (decide (_ = "off"))..].
  by destruct (decide (strings_ToLower env (GetBrowser srvCfg) = "off")).
Qed.

End LoadFurther.

(** Decoding fails after it has filled in part of the struct: loadConfig
    returns the decoder's error and the package variables are as before. *)
Lemma loadConfig_failure_changes_nothing_witness :
  loadConfig MoreExamples.envDecodeFails Examples.params (Examples.globals true)
  = (Returned (Some "unexpected end of JSON input"), Examples.globals true).
Proof.
  apply (loadConfig_failure_changes_nothing MoreExamples.envDecodeFails Examples.params
           (Examples.globals true) "unexpected end of JSON input").
  right. right. split; [reflexivity|]. split; [reflexivity|].
  exists (Examples.stored "15" "off"). reflexivity.
Defined.

(** A stored document of version 15 loads with result nil. *)
Lemma loadConfig_nil_iff_witness :
  (loadConfig (Examples.envLoading (Examples.stored "15" "on")) Examples.params
     (Examples.globals true)).1 = Returned nil.
Proof.
  apply (proj1 (loadConfig_nil_iff (Examples.envLoading (Examples.stored "15" "on"))
                  Examples.params (Examples.globals true))).
  split; [reflexivity|]. split; [reflexivity|].
  exists (Examples.stored "15" "on"). split; reflexivity.
Defined.

(** The file says off and the environment overrides the browser value with
    the empty string: the published snapshot reads as on. *)
Lemma loadConfig_publishes_overrides_witness :
  exists s,
    serverConfig (loadConfig (Examples.envLoading (Examples.stored "15" "off"))
                    (MoreExamples.paramsBrowser "") MoreExamples.globalsEnvBrowser).2 = Some s
    /\ GetBrowser s = "on".
Proof.
  destruct (loadConfig_publishes_overrides (Examples.envLoading (Examples.stored "15" "off"))
              (MoreExamples.paramsBrowser "") MoreExamples.globalsEnvBrowser
              (Examples.stored "15" "off") eq_refl eq_refl eq_refl)
    as (s & Hs & _ & _ & _ & _ & _ & Hbrowser & _).
  exists s. split; [exact Hs | exact Hbrowser].
Defined.

(** ** Validate: what it accepts, where it stops *)

Section ValidateFurther.

Context {D : Decls}.
Variable env : Env.
Variable rangeOrder : gmap string nat -> list (string * nat).
Variable minioConfigFile : string.
Variable gjson_Parse : string -> gjson.json.

Lemma GetRegion_not_empty (s : serverConfigV15) : GetRegion s <> "".
Proof. unfold GetRegion. by destruct (decide (Region s <> "")). Qed.

(** [validateConfig] return by return, with the calls made up to each. The
    return after the reading of the region does not appear: GetRegion is
    never empty. *)
Lemma validateConfig_eq :
  validateConfig rangeOrder minioConfigFile gjson_Parse env
  = match quick_New env serverConfigV15_zero with
    | Some msg => (Returned (Some msg), [Call_getConfigFile; Call_quick_New])
    | None =>
    match qc_Load env serverConfigV15_zero with
    | (Some msg, _) => (Returned (Some msg), [Call_getConfigFile; Call_quick_New; Call_qc_Load])
    | (None, decoded) =>
    if decide (Version decoded <> v15)
    then (Returned (errors.New "bad config version, expected: 15"),
          [Call_getConfigFile; Call_quick_New; Call_qc_Load; Call_GetVersion])
    else
    match ioutil_ReadFile env with
    | (_, Some msg) =>
        (Returned (Some msg),
         [Call_getConfigFile; Call_quick_New; Call_qc_Load; Call_GetVersion;
          Call_ioutil_ReadFile])
    | (jsonBytes, None) =>
    match checkDupJSONKeys rangeOrder minioConfigFile gjson_Parse jsonBytes with
    | Some msg =>
        (Returned (Some msg),
         [Call_getConfigFile; Call_quick_New; Call_qc_Load; Call_GetVersion;
          Call_ioutil_ReadFile; Call_checkDupJSONKeys])
    | None =>
    let b := strings_ToLower env (GetBrowser decoded) in
    if decide (b <> "on" /\ b <> "off")
    then (Returned (errors.New ("Browser config value " +:+ b +:+ " is invalid")),
          callsUpToBrowser)
    else
    if credential_IsValid env (Credential decoded)
    then
      match logger_Validate env (Logger decoded) with
      | Some msg =>
          (Returned (Some msg),
           (callsUpToBrowser ++ [Call_Credential_IsValid; Call_Logger_Validate])%list)
      | None =>
          (Returned (notifier_Validate env (Notify decoded)),
           (callsUpToBrowser
            ++ [Call_Credential_IsValid; Call_Logger_Validate; Call_Notify_Validate])%list)
      end
    else (Returned (errors.New "invalid credential"),
          (callsUpToBrowser ++ [Call_Credential_IsValid])%list)
    end end end end.
Proof.
  unfold validateConfig, call, validateConfig_body.
  destruct (quick_New env serverConfigV15_zero) as [msg|]; [done|].
  destruct (qc_Load env serverConfigV15_zero) as [[msg|] decoded]; [done|].
  unfold GetVersion.
  destruct (decide (Version decoded <> v15)) as [Hv|Hv]; [done|].
  destruct (ioutil_ReadFile env) as [jsonBytes [msg|]]; [done|].
  destruct (checkDupJSONKeys rangeOrder minioConfigFile gjson_Parse jsonBytes) as [msg|];
    [done|].
  run_body.
  destruct (decide (GetRegion decoded = "")) as [Hr|_];
    [by destruct (GetRegion_not_empty decoded)|].
  run_body.
  destruct (decide (_ /\ _)) as [Hb|Hb]; [done|].
  run_body.
  destruct (credential_IsValid env (Credential decoded)); [|done].
  run_body.
  destruct (logger_Validate env (Logger decoded)) as [msg|]; [done|].
  run_body.
  by destruct (notifier_Validate env (Notify decoded)) as [msg|].
Qed.

(** X11. validateConfig returns nil exactly when quick accepts the
    struct, decoding succeeds, the version is 15, the file can be read again
    and the scanner accepts its text, the lowercased browser value is on or
    off, the credential is valid and the logger and notifier validators
    accept. The stored region plays no part. *)
Theorem validateConfig_accepts_iff :
  (validateConfig rangeOrder minioConfigFile gjson_Parse env).1 = Returned nil
  <-> quick_New env serverConfigV15_zero = nil
      /\ exists decoded,
           qc_Load env serverConfigV15_zero = (nil, decoded)
           /\ Version decoded = v15
           /\ (ioutil_ReadFile env).2 = nil
           /\ checkDupJSONKeys rangeOrder minioConfigFile gjson_Parse (ioutil_ReadFile env).1 = nil
           /\ (strings_ToLower env (GetBrowser decoded) = "on"
               \/ strings_ToLower env (GetBrowser decoded) = "off")
           /\ credential_IsValid env (Credential decoded) = true
           /\ logger_Validate env (Logger decoded) = nil
           /\ notifier_Validate env (Notify decoded) = nil.
Proof.
  rewrite validateConfig_eq.
  destruct (quick_New env serverConfigV15_zero) as [msg|]; [by split; [|intros [? _]]|].
  destruct (qc_Load env serverConfigV15_zero) as [[msg|] decoded];
    [by split; [|intros (_ & ? & [=] & _)]|].
  destruct (decide (Version decoded <> v15)) as [Hv|Hv].
  { split; [done|]. intros (_ & decoded' & [= <-] & Hv' & _). by destruct Hv. }
  apply dec_stable in Hv.
  destruct (ioutil_ReadFile env) as [jsonBytes [msg|]]; cbn [fst snd].
  { split; [done|]. by intros (_ & decoded' & _ & _ & ? & _). }
  destruct (checkDupJSONKeys rangeOrder minioConfigFile gjson_Parse jsonBytes) as [msg|].
  { split; [done|]. by intros (_ & decoded' & _ & _ & _ & ? & _). }
  cbn zeta.
  destruct (decide (_ /\ _)) as [[Hon Hoff]|Hb].
  { split; [done|]. intros (_ & decoded' & [= <-] & _ & _ & _ & [?|?] & _); done. }
  assert (strings_ToLower env (GetBrowser decoded) = "on"
          \/ strings_ToLower env (GetBrowser decoded) = "off") as Hbrowser.
  { destruct (decide (strings_ToLower env (GetBrowser decoded) = "on")); [by left|].
    destruct (decide (strings_ToLower env (GetBrowser decoded) = "off")); [by right|].
    by destruct Hb. }
  destruct (credential_IsValid env (Credential decoded)) eqn:Hcred.
  2: { split; [done|]. intros (_ & decoded' & [= <-] & _ & _ & _ & _ & Hvalid & _).
       rewrite Hcred in Hvalid. discriminate Hvalid. }
  destruct (logger_Validate env (Logger decoded)) as [msg|] eqn:Hlogger.
  { split; [done|]. intros (_ & decoded' & [= <-] & _ & _ & _ & _ & _ & Haccept & _).
    rewrite Hlogger in Haccept. discriminate Haccept. }
  cbn [fst]. split.
  - intros [= Hnotify]. split; [done|]. exists decoded. by repeat split.
  - intros (_ & decoded' & [= <-] & _ & _ & _ & _ & _ & _ & Hnotify). by rewrite Hnotify.
Qed.

(** X12. The check of the region never stops validateConfig: a run that
    gets to read the region goes on to read the browser value, whatever
    region is stored. *)
Theorem validateConfig_region_check_passes :
  Call_GetRegion ∈ (validateConfig rangeOrder minioConfigFile gjson_Parse env).2 ->
  Call_GetBrowser ∈ (validateConfig rangeOrder minioConfigFile gjson_Parse env).2.
Proof.
  rewrite validateConfig_eq.
  destruct (quick_New env serverConfigV15_zero) as [msg|]; cbn [snd].
  { rewrite !list_elem_of_In. simpl. intuition discriminate. }
  destruct (qc_Load env serverConfigV15_zero) as [[msg|] decoded]; cbn [snd].
  { rewrite !list_elem_of_In. simpl. intuition discriminate. }
  destruct (decide (Version decoded <> v15)) as [Hv|Hv]; cbn [snd].
  { rewrite !list_elem_of_In. simpl. intuition discriminate. }
  destruct (ioutil_ReadFile env) as [jsonBytes [msg|]]; cbn [snd].
  { rewrite !list_elem_of_In. simpl. intuition discriminate. }
  destruct (checkDupJSONKeys rangeOrder minioConfigFile gjson_Parse jsonBytes) as [msg|];
    cbn [snd].
  { rewrite !list_elem_of_In. simpl. intuition discriminate. }
  intros _. cbn zeta.
  destruct (decide (_ /\ _)); [|destruct (credential_IsValid env _);
    [destruct (logger_Validate env _)|]]; cbn [snd];
    rewrite list_elem_of_In; simpl; tauto.
Qed.

(** X13. When the stored document decodes with version 15 and its text
    has an object scope, reached through object members only, that repeats a
    key, validateConfig returns the scanner's report of such a scope and
    makes no further check. *)
Theorem validateConfig_reports_duplicate_keys (decoded : serverConfigV15) (text : string) :
  (forall m, rangeOrder m ≡ₚ map_to_list m) ->
  quick_New env serverConfigV15_zero = nil ->
  qc_Load env serverConfigV15_zero = (nil, decoded) ->
  Version decoded = v15 ->
  ioutil_ReadFile env = (text, nil) ->
  (exists path d, dupScopeAt (gjson_Parse text) path d) ->
  exists path d,
    dupScopeAt (gjson_Parse text) path d
    /\ validateConfig rangeOrder minioConfigFile gjson_Parse env
       = (Returned (errors.New (breadcrumb (minioConfigFile :: path) d)),
          [Call_getConfigFile; Call_quick_New; Call_qc_Load; Call_GetVersion;
           Call_ioutil_ReadFile; Call_checkDupJSONKeys]).
Proof.
  intros Hperm Hnew Hload Hv Hread (path & d & Hscope).
  pose proof validateConfig_eq as Heq. rewrite Hnew, Hload, Hread in Heq.
  cbv beta iota zeta delta [nil] in Heq.
  destruct (decide (Version decoded <> v15)) as [Hne|_]; [by destruct Hne|].
  unfold checkDupJSONKeys in Heq.
  destruct (doCheckDupJSONKeys rangeOrder _ (gjson_Parse text)) as [msg|] eqn:Hrun.
  - apply (doCheckDupJSONKeys_sound _ Hperm) in Hrun as (path' & d' & Hscope' & ->).
    by exists path', d'.
  - by apply (doCheckDupJSONKeys_complete _ Hperm _ _ path d) in Hrun.
Qed.

(** X14. The defaults of newServerConfigV15 pass validateConfig: when the
    stored document decodes to them, its text is accepted by the scanner,
    lower-casing leaves off as it is and the generated credential and the
    default logger and notifier are accepted by their validators, the
    result is nil. *)
Theorem validateConfig_accepts_defaults (text : string) :
  quick_New env serverConfigV15_zero = nil ->
  qc_Load env serverConfigV15_zero = (nil, newServerConfigV15 env) ->
  ioutil_ReadFile env = (text, nil) ->
  checkDupJSONKeys rangeOrder minioConfigFile gjson_Parse text = nil ->
  strings_ToLower env "off" = "off" ->
  credential_IsValid env (mustGetNewCredential env) = true ->
  logger_Validate env (Logger (newServerConfigV15 env)) = nil ->
  notifier_Validate env (Notify (newServerConfigV15 env)) = nil ->
  (validateConfig rangeOrder minioConfigFile gjson_Parse env).1 = Returned nil.
Proof.
  intros Hnew Hload Hread Hdup Hlower Hcred Hlogger Hnotify.
  pose proof validateConfig_eq as Heq. rewrite Hnew, Hload, Hread in Heq.
  cbv beta iota zeta delta [nil] in Heq. rewrite Hdup in Heq.
  change (Version (newServerConfigV15 env)) with v15 in Heq.
  change (GetBrowser (newServerConfigV15 env)) with "off" in Heq.
  change (Credential (newServerConfigV15 env)) with (mustGetNewCredential env) in Heq.
  rewrite Hlower, Hcred, Hlogger, Hnotify in Heq.
  destruct (decide (v15 <> v15)) as [Hne|_]; [by destruct Hne|].
  destruct (decide ("off" <> "on" /\ "off" <> "off")) as [[_ Hne]|_]; [by destruct Hne|].
  by rewrite Heq.
Qed.

End ValidateFurther.

(** A stored document of version 15 whose region field is empty is
    accepted. *)
Lemma validateConfig_accepts_iff_witness :
  Region MoreExamples.storedNoRegion = ""
  /\ (validateConfig map_to_list "config.json" Examples.parse
        (MoreExamples.envStored Examples.textSiblings MoreExamples.storedNoRegion)).1
     = Returned nil.
Proof.
  split; [reflexivity|].
  apply (proj2 (validateConfig_accepts_iff
                  (MoreExamples.envStored Examples.textSiblings MoreExamples.storedNoRegion)
                  map_to_list "config.json" Examples.parse)).
  split; [reflexivity|]. exists MoreExamples.storedNoRegion.
  repeat split; try reflexivity. left. vm_compute; reflexivity.
Defined.

(** With an empty region stored, the run that reads the region also reads
    the browser value. *)
Lemma validateConfig_region_check_passes_witness :
  Region MoreExamples.storedNoRegion = ""
  /\ Call_GetBrowser
     ∈ (validateConfig map_to_list "config.json" Examples.parse
          (MoreExamples.envStored Examples.textSiblings MoreExamples.storedNoRegion)).2.
Proof.
  split; [reflexivity|].
  apply (validateConfig_region_check_passes
           (MoreExamples.envStored Examples.textSiblings MoreExamples.storedNoRegion)
           map_to_list "config.json" Examples.parse).
  vm_compute. do 6 right. left.
Defined.

(** A stored document of version 15 whose text repeats the key 1 under
    notify is rejected with the scanner's report. *)
Lemma validateConfig_reports_duplicate_keys_witness :
  exists path d,
    dupScopeAt (Examples.parse Examples.textDupNested) path d
    /\ validateConfig map_to_list "config.json" Examples.parse
         (MoreExamples.envStored Examples.textDupNested (Examples.stored "15" "on"))
       = (Returned (errors.New (breadcrumb ("config.json" :: path) d)),
          [Call_getConfigFile; Call_quick_New; Call_qc_Load; Call_GetVersion;
           Call_ioutil_ReadFile; Call_checkDupJSONKeys]).
Proof.
  apply (validateConfig_reports_duplicate_keys
           (MoreExamples.envStored Examples.textDupNested (Examples.stored "15" "on"))
           map_to_list "config.json" Examples.parse
           (Examples.stored "15" "on") Examples.textDupNested);
    [intros m; reflexivity | reflexivity | reflexivity | reflexivity | reflexivity |].
  exists ["notify"], "1".
  apply (dup_below _ "notify" (gjson.JObject [("1", gjson.JObject []); ("1", gjson.JObject [])])).
  - right. left.
  - apply dup_here. vm_compute. lia.
Defined.

(** The fresh defaults, stored and decoded again, are accepted. *)
Lemma validateConfig_accepts_defaults_witness :
  (validateConfig map_to_list "config.json" Examples.parse MoreExamples.envDefaults).1
  = Returned nil.
Proof.
  apply (validateConfig_accepts_defaults MoreExamples.envDefaults
           map_to_list "config.json" Examples.parse Examples.textSiblings);
    reflexivity.
Defined.

(** ** Create: publication and saving *)

Section CreateFurther.

Context {D : Decls}.
Variable env : Env.
Variable envCreate : EnvCreate.

(** [newConfig] return by return. *)
Lemma newConfig_eq (envParams : envParams) (p : Process) :
  newConfig env envCreate envParams p
  = match createConfigDir envCreate with
    | Some msg => (Returned (Some msg), p)
    | None =>
        let srvCfg := withEnvOverrides envParams (vars p) (newServerConfigV15 env) in
        let p1 := set_vars (set_serverConfig srvCfg) p in
        match quick_New env srvCfg with
        | Some msg => (Returned (Some msg), p1)
        | None => (Returned (qc_Save envCreate srvCfg), record_save srvCfg p1)
        end
    end.
Proof.
  unfold newConfig, call, newConfig_body, withEnvOverrides.
  destruct p as [[isEnvCreds isEnvBrowser enabled published] written].
  destruct (createConfigDir envCreate) as [msg|];
    [by destruct isEnvCreds, isEnvBrowser|].
  destruct isEnvCreds, isEnvBrowser; run_body;
    unfold invoke, call, Save_body; run_body;
    match goal with |- context [quick_New env ?s] => destruct (quick_New env s) end;
    done.
Qed.

(** X15. When the configuration directory cannot be made, newConfig
    returns that error, publishes nothing and saves nothing. *)
Theorem newConfig_dir_failure (envParams : envParams) (p : Process) (msg : string) :
  createConfigDir envCreate = Some msg ->
  newConfig env envCreate envParams p = (Returned (Some msg), p).
Proof. intros Hdir. by rewrite newConfig_eq, Hdir. Qed.

(** X16. Once the directory is there, newConfig publishes the defaults
    with the overrides of the environment and hands that very snapshot to
    Save; what Save returns is what newConfig returns, and the snapshot
    stays published when saving fails. *)
Theorem newConfig_publishes_then_saves (envParams : envParams) (p : Process) :
  createConfigDir envCreate = nil ->
  let srvCfg := withEnvOverrides envParams (vars p) (newServerConfigV15 env) in
  let run := newConfig env envCreate envParams p in
  serverConfig (vars run.2) = Some srvCfg
  /\ (quick_New env srvCfg = nil ->
      run.1 = Returned (qc_Save envCreate srvCfg)
      /\ saved run.2 = (saved p ++ [srvCfg])%list)
  /\ (forall msg, quick_New env srvCfg = Some msg ->
      run.1 = Returned (Some msg) /\ saved run.2 = saved p).
Proof.
  intros Hdir srvCfg run. unfold run. rewrite newConfig_eq, Hdir.
  cbv beta iota zeta delta [nil]. fold srvCfg.
  destruct (quick_New env srvCfg) as [msg|]; (split; [done|]); split; try done.
  by intros msg' [= <-].
Qed.

(** X17. newConfig never changes the browser flag, although the snapshot
    it publishes, absent an override of the browser value, reads off. *)
Theorem newConfig_leaves_browser_flag (envParams : envParams) (p : Process) :
  globalIsBrowserEnabled (vars (newConfig env envCreate envParams p).2)
  = globalIsBrowserEnabled (vars p)
  /\ (createConfigDir envCreate = nil ->
      globalIsEnvBrowser (vars p) = false ->
      exists srvCfg,
        serverConfig (vars (newConfig env envCreate envParams p).2) = Some srvCfg
        /\ GetBrowser srvCfg = "off").
Proof.
  rewrite newConfig_eq. split.
  - destruct (createConfigDir envCreate) as [msg|]; [done|]. cbn zeta.
    by destruct (quick_New env _).
  - intros -> Hbrowser. cbv beta iota zeta delta [nil].
    eexists. split; [by destruct (quick_New env _)|].
    unfold withEnvOverrides. rewrite Hbrowser. by destruct (globalIsEnvCreds (vars p)).
Qed.

(** X18. After a newConfig that returned nil, a loadConfig that decodes
    what was saved returns nil and publishes the same snapshot again; it
    clears the browser flag when that snapshot's browser value, lowercased,
    is off, and leaves the flag as it was otherwise. *)
Theorem newConfig_then_loadConfig (envParams : envParams) (p p' : Process) :
  newConfig env envCreate envParams p = (Returned nil, p') ->
  os_Stat env = nil ->
  quick_New env serverConfigV15_zero = nil ->
  (forall srvCfg, last (saved p') = Some srvCfg ->
                  qc_Load env serverConfigV15_zero = (nil, srvCfg)) ->
  exists srvCfg g,
    serverConfig (vars p') = Some srvCfg
    /\ last (saved p') = Some srvCfg
    /\ loadConfig env envParams (vars p') = (Returned nil, g)
    /\ serverConfig g = Some srvCfg
    /\ globalIsBrowserEnabled g
       = (if decide (strings_ToLower env (GetBrowser srvCfg) = "off")
          then false else globalIsBrowserEnabled (vars p)).
Proof.
  rewrite newConfig_eq. intros Hrun Hstat Hnew Hload.
  destruct (createConfigDir envCreate) as [msg|]; [done|]. cbn zeta in Hrun.
  set (srvCfg := withEnvOverrides envParams (vars p) (newServerConfigV15 env)) in *.
  destruct (quick_New env srvCfg) as [msg|]; [done|].
  injection Hrun as Hsave <-. cbn [saved vars record_save set_vars] in *.
  specialize (Hload srvCfg (last_snoc _ _)).
  exists srvCfg. eexists. split; [done|]. split; [apply last_snoc|].
  rewrite loadConfig_eq, Hstat, Hnew, Hload. cbv beta iota zeta delta [nil].
  assert (withEnvOverrides envParams (set_serverConfig srvCfg (vars p)) srvCfg = srvCfg)
    as -> by (by apply withEnvOverrides_twice).
  assert (Version srvCfg = v15) as Hv by apply withEnvOverrides_Version.
  destruct (decide (Version srvCfg <> v15)) as [Hne|_]; [by destruct Hne|].
  split; [reflexivity|]. split; [done|].
  by destruct (decide (strings_ToLower env (GetBrowser srvCfg) = "off")).
Qed.

End CreateFurther.

(** The directory cannot be made: the error is returned and the process is
    as before. *)
Lemma newConfig_dir_failure_witness :
  newConfig (Examples.envLoading (Examples.stored "15" "on")) MoreExamples.envCreateNoDir
    Examples.params MoreExamples.fresh
  = (Returned (Some "permission denied"), MoreExamples.fresh).
Proof.
  apply (newConfig_dir_failure (Examples.envLoading (Examples.stored "15" "on"))
           MoreExamples.envCreateNoDir Examples.params MoreExamples.fresh "permission denied").
  reflexivity.
Defined.

(** Saving fails: newConfig returns the error of the save, and the
    defaults are published all the same. *)
Lemma newConfig_publishes_then_saves_witness :
  let env := Examples.envLoading (Examples.stored "15" "on") in
  let run := newConfig env MoreExamples.envCreateSaveFails Examples.params MoreExamples.fresh in
  serverConfig (vars run.2) = Some (newServerConfigV15 env)
  /\ run.1 = Returned (Some "disk full")
  /\ saved run.2 = [newServerConfigV15 env].
Proof.
  intros env run.
  destruct (newConfig_publishes_then_saves env MoreExamples.envCreateSaveFails
              Examples.params MoreExamples.fresh eq_refl) as (Hpub & Hsave & _).
  destruct (Hsave eq_refl) as [Hret Hsaved].
  split; [exact Hpub|]. split; [exact Hret | exact Hsaved].
Defined.

(** A fresh start without override: the published snapshot reads off and
    the browser flag is still set. *)
Lemma newConfig_leaves_browser_flag_witness :
  let run := newConfig (Examples.envLoading (Examples.stored "15" "on"))
               MoreExamples.envCreateOk Examples.params MoreExamples.fresh in
  globalIsBrowserEnabled (vars run.2) = true
  /\ exists srvCfg, serverConfig (vars run.2) = Some srvCfg /\ GetBrowser srvCfg = "off".
Proof.
  intros run.
  destruct (newConfig_leaves_browser_flag (Examples.envLoading (Examples.stored "15" "on"))
              MoreExamples.envCreateOk Examples.params MoreExamples.fresh) as [Hflag Hoff].
  split; [exact Hflag | exact (Hoff eq_refl eq_refl)].
Defined.

(** A fresh start followed by a load of what was saved: the same snapshot
    is published again and the browser flag is now cleared. *)
Lemma newConfig_then_loadConfig_witness :
  let p' := (newConfig MoreExamples.envDefaults MoreExamples.envCreateOk Examples.params
               MoreExamples.fresh).2 in
  exists srvCfg g,
    serverConfig (vars p') = Some srvCfg
    /\ last (saved p') = Some srvCfg
    /\ loadConfig MoreExamples.envDefaults Examples.params (vars p') = (Returned nil, g)
    /\ serverConfig g = Some srvCfg
    /\ globalIsBrowserEnabled g = false.
Proof.
  intros p'.
  destruct (newConfig_then_loadConfig MoreExamples.envDefaults MoreExamples.envCreateOk
              Examples.params MoreExamples.fresh p')
    as (srvCfg & g & Hpub & Hlast & Hload & Hagain & Hflag).
  - reflexivity.
  - reflexivity.
  - reflexivity.
  - intros srvCfg [= <-]. reflexivity.
  - exists srvCfg, g. repeat split; try assumption.
    rewrite Hflag. clear -Hpub.
    injection Hpub as <-. reflexivity.
Defined.

(** ** The table the closure fills, and the flag on a rejected version *)

Lemma occurrences_app d (names names' : list string) :
  occurrences d (names ++ names')%list = occurrences d names + occurrences d names'.
Proof. induction names as [|k names IH]; simpl; [done|]. rewrite IH. lia. Qed.

Lemma tally_snoc names k (m : gmap string nat) :
  tally (names ++ [k])%list m = incr k (tally names m).
Proof. unfold tally. by rewrite foldl_app. Qed.

Lemma tally_lookup_exact names d :
  tally names ∅ !! d
  = if decide (d ∈ names) then Some (occurrences d names) else None.
Proof.
  induction names as [|k names IH] using rev_ind.
  - by destruct (decide (d ∈ [])) as [?%elem_of_nil|].
  - rewrite tally_snoc. unfold incr. destruct (decide (k = d)) as [->|Hne].
    + rewrite lookup_insert_eq, IH, occurrences_app. simpl.
      destruct (decide (d ∈ (names ++ [d])%list)) as [_|Hn];
        [|destruct Hn; apply elem_of_app; right; left].
      destruct (decide (d = d)) as [_|?]; [|done].
      destruct (decide (d ∈ names)) as [_|Hnot]; simpl; [f_equal; lia|].
      rewrite occurrences_not_elem by done. done.
    + rewrite lookup_insert_ne, IH, occurrences_app by done. simpl.
      destruct (decide (k = d)) as [?|_]; [done|].
      destruct (decide (d ∈ names)) as [Hin|Hnot].
      * destruct (decide (d ∈ (names ++ [k])%list)) as [_|Hn];
          [f_equal; lia | destruct Hn; apply elem_of_app; by left].
      * destruct (decide (d ∈ (names ++ [k])%list)) as [Hin|_]; [|done].
        apply elem_of_app in Hin as [?|Hin]; [done|].
        apply list_elem_of_singleton in Hin. by destruct Hne.
Qed.

(** X19. When the walk over the members of an object ends without a
    rejected value, the table the closure has filled holds, for every name
    among the members, the number of members of that name, scalars
    included, and holds nothing else. *)
Theorem forEachMember_counts_names
    (scan : gjson.Result -> gjson.json -> error)
    (members : list (string * gjson.json)) (d : string) :
  allAccepted scan members ->
  (gjson.forEachMember (iterator scan) members (∅, nil)).1 !! d
  = if decide (d ∈ members.*1) then Some (occurrences d members.*1) else None.
Proof.
  intros Hall%firstError_allAccepted.
  rewrite (proj2 (forEachMember_iterator scan members ∅) Hall).
  apply tally_lookup_exact.
Qed.

(** The member a twice, once with a scalar and once with an object: the
    table holds 2 for a and nothing for b. *)
Lemma forEachMember_counts_names_witness :
  let members := [("a", gjson.JNumber "1"); ("a", gjson.JObject [])] in
  (gjson.forEachMember (iterator (doCheckDupJSONKeys map_to_list)) members (∅, nil)).1 !! "a"
  = Some 2.
Proof.
  intros members.
  apply (forEachMember_counts_names (doCheckDupJSONKeys map_to_list) members "a").
  repeat (apply Forall_cons_2; [reflexivity|]). apply Forall_nil_2.
Defined.

Section LoadFlag.

Context {D : Decls}.
Variable env : Env.

(** X20. Whenever decoding succeeds, also when loadConfig then returns
    the version error, the browser flag is false after the call exactly when
    it was false before or the published snapshot's browser value,
    lowercased, is off. *)
Theorem loadConfig_flag_whatever_version
    (envParams : envParams) (g : Globals) (decoded : serverConfigV15) :
  os_Stat env = nil ->
  quick_New env serverConfigV15_zero = nil ->
  qc_Load env serverConfigV15_zero = (nil, decoded) ->
  globalIsBrowserEnabled (loadConfig env envParams g).2 = false
  <-> globalIsBrowserEnabled g = false
      \/ strings_ToLower env (GetBrowser (withEnvOverrides envParams g decoded)) = "off".
Proof.
  intros Hstat Hnew Hload.
  pose proof (loadConfig_eq env envParams g) as Heq.
  rewrite Hstat, Hnew, Hload in Heq. cbv beta iota zeta delta [nil] in Heq.
  rewrite Heq. cbn [snd].
  destruct (decide (_ = "off")) as [Hoff|Hon]; cbn; tauto.
Qed.

End LoadFlag.

(** A stored document of version 14 whose browser value is off: the load
    fails on the version and the flag has been cleared. *)
Lemma loadConfig_flag_whatever_version_witness :
  let run := loadConfig (Examples.envLoading (Examples.stored "14" "off")) Examples.params
               (Examples.globals true) in
  run.1 = Returned (Some "Unsupported config version `14`.")
  /\ globalIsBrowserEnabled run.2 = false.
Proof.
  intros run. split; [vm_compute; reflexivity|].
  apply (proj2 (loadConfig_flag_whatever_version
                  (Examples.envLoading (Examples.stored "14" "off")) Examples.params
                  (Examples.globals true) (Examples.stored "14" "off")
                  eq_refl eq_refl eq_refl)).
  right. vm_compute; reflexivity.
Defined.
